(** * Weather pipeline: the aggregation and selection stages

    A shallow embedding of [tasks.py] ([DataAggregationTask.aggregate],
    [DataAnalyzingTask.analyze]) and of the schema of [models.py], with
    the properties of the merge and of the favourable-city selection. *)

From Stdlib Require Import ZArith List String Ascii Bool Lia.
From Stdlib Require Import Floats.SpecFloat.
Import ListNotations.

Set Warnings "-register-all".

Local Open Scope string_scope.
Local Open Scope list_scope.
Local Open Scope Z_scope.

(** ** Python floats

    A Python [float] is an IEEE 754 binary64 number.  [spec_float] at
    precision 53 and maximal exponent 1024 is that format, with one NaN. *)

Module PyFloat.

Definition float : Type := spec_float.

Definition prec : Z := 53.
Definition emax : Z := 1024.

(** [x + y] on floats. *)
Definition add (x y : float) : float := SFadd prec emax x y.

(** [x / y] on floats with [y] not zero (Python raises on zero). *)
Definition div (x y : float) : float := SFdiv prec emax x y.

(** [x == y]: false as soon as one side is NaN, [-0.0 == 0.0]. *)
Definition eqb (x y : float) : bool := SFeqb x y.

(** [x > y]. *)
Definition gtb (x y : float) : bool := SFltb y x.

(** [float("-inf")]. *)
Definition neg_inf : float := S754_infinity true.

(** [float(n)] for a Python [int], rounded to nearest even; this is the
    conversion Python applies to the [int] operand of a mixed
    [float]/[int] operation. *)
Definition of_int (n : Z) : float := binary_normalize prec emax n 0 false.

Definition zero : float := S754_zero false.

Definition is_nan (x : float) : bool :=
  match x with S754_nan => true | _ => false end.

End PyFloat.

Abbreviation float := PyFloat.float.

(** ** The schema of [models.py] *)

Record DayData : Type := {
  date : string;
  hours_start : option Z;
  hours_end : option Z;
  hours_count : Z;
  temp_avg : option float;
  relevant_cond_hours : Z
}.

Record CityData : Type := { days : list DayData }.

(** [Dict[str, CityData]]: a Python dict iterates in insertion order, so
    the dataset is the list of its items in that order. *)
Record WeatherData : Type := { cities : list (string * CityData) }.

(** ** The selection pass ([DataAnalyzingTask.analyze], the two loops) *)

Module Selection.

(** The three accumulators of the inner loop.  [total_temp] starts as
    the [int] 0; it is read only after at least one [float] was added,
    and [0 + t] is [0.0 + t], so it is kept as the float [0.0]. *)
Record totals : Type := {
  total_temp : float;
  total_clear_hours : Z;
  days_count : Z
}.

Definition totals0 : totals :=
  {| total_temp := PyFloat.zero; total_clear_hours := 0; days_count := 0 |}.

(** The body of [for day in city_data.days]. *)
Definition day_step (a : totals) (day : DayData) : totals :=
  let a1 :=
    match temp_avg day with
    | Some t =>
        {| total_temp := PyFloat.add (total_temp a) t;
           total_clear_hours := total_clear_hours a;
           days_count := days_count a + 1 |}
    | None => a
    end in
  {| total_temp := total_temp a1;
     total_clear_hours := total_clear_hours a1 + relevant_cond_hours day;
     days_count := days_count a1 |}.

Definition city_totals (city_data : CityData) : totals :=
  fold_left day_step (days city_data) totals0.

(** The three variables of the outer loop. *)
Record selection : Type := {
  best_cities : list string;
  max_avg_temp : float;
  max_clear_hours : Z
}.

Definition selection0 : selection :=
  {| best_cities := []; max_avg_temp := PyFloat.neg_inf; max_clear_hours := 0 |}.

(** [total_temp / days_count], evaluated only under [days_count > 0]. *)
Definition avg_temp_value (a : totals) : float :=
  PyFloat.div (total_temp a) (PyFloat.of_int (days_count a)).

(** The body of [for city, city_data in weather_data.cities.items()]. *)
Definition city_step (s : selection) (item : string * CityData) : selection :=
  let (city, city_data) := item in
  let a := city_totals city_data in
  if 0 <? days_count a then
    let avg_temp := avg_temp_value a in
    if PyFloat.gtb avg_temp (max_avg_temp s)
       || (PyFloat.eqb avg_temp (max_avg_temp s)
           && (max_clear_hours s <? total_clear_hours a))
    then
      {| best_cities := [city];
         max_avg_temp := avg_temp;
         max_clear_hours := total_clear_hours a |}
    else if PyFloat.eqb avg_temp (max_avg_temp s)
            && (total_clear_hours a =? max_clear_hours s)
    then
      {| best_cities := best_cities s ++ [city];
         max_avg_temp := max_avg_temp s;
         max_clear_hours := max_clear_hours s |}
    else s
  else s.

(** The whole pass, from an arbitrary state and from the initial one. *)
Definition select_from (s : selection) (items : list (string * CityData)) : selection :=
  fold_left city_step items s.

Definition select (weather_data : WeatherData) : selection :=
  select_from selection0 (cities weather_data).

(** *** The quantities named by the specification *)

(** The temperatures of the days that carry one, in day order. *)
Fixpoint defined_temps (ds : list DayData) : list float :=
  match ds with
  | [] => []
  | d :: ds' =>
      match temp_avg d with
      | Some t => t :: defined_temps ds'
      | None => defined_temps ds'
      end
  end.

(** Float sum in list order, from zero. *)
Definition fsum (ts : list float) : float := fold_left PyFloat.add ts PyFloat.zero.

(** Sum over the defined days divided by their count; [None] when no
    day has a temperature. *)
Definition spec_avg_temp (ds : list DayData) : option float :=
  match defined_temps ds with
  | [] => None
  | ts => Some (PyFloat.div (fsum ts) (PyFloat.of_int (Z.of_nat (List.length ts))))
  end.

(** Sum of [relevant_cond_hours] over all the days. *)
Definition spec_total_hours (ds : list DayData) : Z :=
  fold_right Z.add 0 (map relevant_cond_hours ds).

(** [cd] has a defined average equal to the running best average and
    as many favourable hours as the running best hours. *)
Definition tied (s : selection) (cd : CityData) : Prop :=
  exists avg,
    spec_avg_temp (days cd) = Some avg
    /\ PyFloat.eqb avg (max_avg_temp s) = true
    /\ spec_total_hours (days cd) = max_clear_hours s.

(** Every name of the best set is the key of a processed item that is
    tied with the running best. *)
Definition best_ok (items : list (string * CityData)) (s : selection) : Prop :=
  forall name, In name (best_cities s) ->
               exists cd, In (name, cd) items /\ tied s cd.

End Selection.

(** ** Decoded JSON, Python dicts and path helpers *)

(** What [json.load] returns: [None], [bool], [int], [float], [str],
    [list] and [dict] with string keys. *)
Inductive json : Type :=
| JNull
| JBool (b : bool)
| JInt (n : Z)
| JFloat (x : float)
| JStr (s : string)
| JList (l : list json)
| JDict (items : list (string * json)).

Module PyDict.

(** A dict with string keys, as the list of its items in insertion
    order. *)
Definition dict (V : Type) : Type := list (string * V).

Definition keys {V} (d : dict V) : list string := map fst d.

(** [d.get(k)]. *)
Fixpoint get {V} (k : string) (d : dict V) : option V :=
  match d with
  | [] => None
  | (k', v) :: d' => if String.eqb k' k then Some v else get k d'
  end.

(** [d[k] = v]: a present key keeps its position and takes the new
    value, a new key goes last. *)
Fixpoint set {V} (k : string) (v : V) (d : dict V) : dict V :=
  match d with
  | [] => [(k, v)]
  | (k', v') :: d' =>
      if String.eqb k' k then (k, v) :: d' else (k', v') :: set k v d'
  end.

End PyDict.

Module PyPath.

(** The part of [p] after its last slash, when it has one. *)
Fixpoint after_last_slash (p : string) : option string :=
  match p with
  | EmptyString => None
  | String c r =>
      match after_last_slash r with
      | Some t => Some t
      | None => if Ascii.eqb c "/" then Some r else None
      end
  end.

(** [os.path.basename(p)] (POSIX): [p[p.rfind("/") + 1:]]. *)
Definition basename (p : string) : string :=
  match after_last_slash p with
  | Some t => t
  | None => p
  end.

(** [s.split(sep)[0]]: the part of [s] before the first [sep], the
    whole of [s] when it has none. *)
Fixpoint split_head (sep : ascii) (s : string) : string :=
  match s with
  | EmptyString => EmptyString
  | String c r => if Ascii.eqb c sep then EmptyString else String c (split_head sep r)
  end.

(** [c in s] *)
Fixpoint has_char (c : ascii) (s : string) : bool :=
  match s with
  | EmptyString => false
  | String c' r => Ascii.eqb c' c || has_char c r
  end.

End PyPath.

(** ** Exceptions, the log and the stage monad *)

(** The exception classes the handlers of [tasks.py] tell apart; all of
    them derive from [Exception].  [IOError] is [OSError]. *)
Inductive exn_class : Type :=
| OSError
| JSONDecodeError
| ValidationError
| OtherException.

Record exn : Type := { exn_type : exn_class; exn_str : string }.

Inductive levelname : Type := INFO | ERROR.

Record log_record : Type := { level : levelname; message : string }.

(** What a stage can observe and change: the lines logged so far and the
    completed [json.dump] calls, path and value, latest last. *)
Record state : Type := {
  log : list log_record;
  written : list (string * json)
}.

(** The file system as the two stages use it. *)
Record env : Type := {
  (** [glob.glob(pattern)] *)
  glob_glob : string -> list string;
  (** [open(path, "r")] followed by [json.load]: the decoded value, or
      the exception one of the two raised *)
  json_load : string -> exn + json;
  (** [open(path, "w")] followed by [json.dump]: [None] when the value
      was written, the exception otherwise *)
  json_dump : string -> json -> option exn
}.

Module Stage.

(** A computation that may raise and that threads the [state]; the
    state reached is kept when an exception is raised. *)
Definition M (A : Type) : Type := state -> (exn + A) * state.

Definition ret {A} (a : A) : M A := fun st => (inr a, st).

Definition bind {A B} (m : M A) (k : A -> M B) : M B :=
  fun st =>
    match m st with
    | (inr a, st') => k a st'
    | (inl e, st') => (inl e, st')
    end.

Definition raise {A} (e : exn) : M A := fun st => (inl e, st).

Definition emit (r : log_record) : M unit :=
  fun st => (inr tt, {| log := log st ++ [r]; written := written st |}).

Definition logging_info (msg : string) : M unit :=
  emit {| level := INFO; message := msg |}.

Definition logging_error (msg : string) : M unit :=
  emit {| level := ERROR; message := msg |}.

Definition load (E : env) (path : string) : M json :=
  match json_load E path with
  | inl e => raise e
  | inr data => ret data
  end.

Definition dump (E : env) (path : string) (data : json) : M unit :=
  match json_dump E path data with
  | Some e => raise e
  | None =>
      fun st => (inr tt, {| log := log st; written := written st ++ [(path, data)] |})
  end.

(** An [except] clause: the classes it catches and its body. *)
Definition handler (A : Type) : Type := (exn_class -> bool) * (exn -> M A).

(** [try: body except ...]: the first clause that matches the raised
    exception runs; with no match the exception goes on. *)
Definition try_except {A} (body : M A) (handlers : list (handler A)) : M A :=
  fun st =>
    match body st with
    | (inr a, st') => (inr a, st')
    | (inl e, st') =>
        match find (fun h : handler A => fst h (exn_type e)) handlers with
        | Some h => snd h e st'
        | None => (inl e, st')
        end
    end.

(** [except (OSError, IOError)], [except json.JSONDecodeError],
    [except ValidationError], [except Exception]. *)
Definition is_OSError (c : exn_class) : bool :=
  match c with OSError => true | _ => false end.
Definition is_JSONDecodeError (c : exn_class) : bool :=
  match c with JSONDecodeError => true | _ => false end.
Definition is_ValidationError (c : exn_class) : bool :=
  match c with ValidationError => true | _ => false end.
Definition is_Exception (c : exn_class) : bool := true.

End Stage.

Declare Scope stage_scope.
Delimit Scope stage_scope with stage.
Notation "x <- m ;; k" := (Stage.bind m (fun x => k))
  (at level 61, m at next level, right associativity) : stage_scope.
Notation "m ;;; k" := (Stage.bind m (fun _ => k))
  (at level 61, right associativity) : stage_scope.

Local Open Scope stage_scope.

(** ** The aggregation stage ([DataAggregationTask]) *)

Module Aggregation.

Record DataAggregationTask : Type := {
  input_folder : string;
  output_file : string
}.

(** [os.path.basename(file_name).split("_")[0]] *)
Definition city_name_of (file_name : string) : string :=
  PyPath.split_head "_" (PyPath.basename file_name).

(** The [for file_name in glob.glob(...)] loop, from the mapping built
    so far. *)
Fixpoint merge_files (E : env) (file_names : list string)
    (aggregated_data : PyDict.dict json) : Stage.M (PyDict.dict json) :=
  match file_names with
  | [] => Stage.ret aggregated_data
  | file_name :: rest =>
      let city_name := city_name_of file_name in
      data <- Stage.load E file_name ;;
      merge_files E rest (PyDict.set city_name data aggregated_data)
  end.

Definition aggregate (self : DataAggregationTask) (E : env) : Stage.M unit :=
  Stage.try_except
    (Stage.logging_info "Starting data aggregation" ;;;
     aggregated_data <-
       merge_files E (glob_glob E (input_folder self ++ "/*_analysis.json")) [] ;;
     Stage.dump E (output_file self) (JDict aggregated_data) ;;;
     Stage.logging_info
       ("Data successfully aggregated and saved in " ++ output_file self))
    [ (Stage.is_OSError,
       fun e => Stage.logging_error
                  ("Filesystem error during aggregation: " ++ exn_str e));
      (Stage.is_JSONDecodeError,
       fun e => Stage.logging_error
                  ("JSON decoding error during aggregation: " ++ exn_str e));
      (Stage.is_Exception,
       fun e => Stage.logging_error
                  ("Unexpected error during data aggregation: " ++ exn_str e)) ].

(** The mapping the loop builds from [d] when the files decode to the
    paired contents. *)
Definition merged (contents : list (string * json)) (d : PyDict.dict json)
    : PyDict.dict json :=
  fold_left (fun acc fj => PyDict.set (city_name_of (fst fj)) (snd fj) acc) contents d.

(** The value this run wrote to [path], if it wrote one. *)
Definition output_of (path : string) (st : state) : option json :=
  PyDict.get path (rev (written st)).

End Aggregation.

(** ** Schema validation

    [WeatherData(cities=data)] is run by pydantic from the declarations
    of [models.py].  The stage below takes that validator as an
    argument.  [Schema] is the validator on inputs whose JSON types are
    the declared ones, an integer being also accepted where a float is
    declared; extra keys are ignored, an absent or [null] optional field
    is [None].  Coercions from other JSON types are not covered: such
    inputs are refused here. *)

Module Schema.

Definition as_int (j : json) : option Z :=
  match j with JInt n => Some n | _ => None end.

Definition as_float (j : json) : option float :=
  match j with
  | JFloat x => Some x
  | JInt n => Some (PyFloat.of_int n)
  | _ => None
  end.

Definition as_str (j : json) : option string :=
  match j with JStr s => Some s | _ => None end.

(** A field declared [T] with no default. *)
Definition required {T} (as_T : json -> option T) (k : string)
    (items : PyDict.dict json) : option T :=
  match PyDict.get k items with
  | Some j => as_T j
  | None => None
  end.

(** A field declared [Optional[T] = None]. *)
Definition optional {T} (as_T : json -> option T) (k : string)
    (items : PyDict.dict json) : option (option T) :=
  match PyDict.get k items with
  | None | Some JNull => Some None
  | Some j => option_map Some (as_T j)
  end.

Definition validate_DayData (j : json) : option DayData :=
  match j with
  | JDict items =>
      match required as_str "date" items,
            optional as_int "hours_start" items,
            optional as_int "hours_end" items,
            required as_int "hours_count" items,
            optional as_float "temp_avg" items,
            required as_int "relevant_cond_hours" items with
      | Some d, Some hs, Some he, Some hc, Some t, Some r =>
          Some {| date := d; hours_start := hs; hours_end := he;
                  hours_count := hc; temp_avg := t;
                  relevant_cond_hours := r |}
      | _, _, _, _, _, _ => None
      end
  | _ => None
  end.

(** All the elements validated, or [None] at the first refusal. *)
Fixpoint validate_all {A B} (f : A -> option B) (l : list A) : option (list B) :=
  match l with
  | [] => Some []
  | a :: l' =>
      match f a, validate_all f l' with
      | Some b, Some bs => Some (b :: bs)
      | _, _ => None
      end
  end.

Definition validate_CityData (j : json) : option CityData :=
  match j with
  | JDict items =>
      match PyDict.get "days" items with
      | Some (JList l) =>
          option_map (fun ds => {| days := ds |}) (validate_all validate_DayData l)
      | _ => None
      end
  | _ => None
  end.

Definition validate_item (item : string * json) : option (string * CityData) :=
  option_map (fun c => (fst item, c)) (validate_CityData (snd item)).

(** [WeatherData(cities=data)]: the model, or [ValidationError]. *)
Definition validate_WeatherData (data : json) : exn + WeatherData :=
  match data with
  | JDict items =>
      match validate_all validate_item items with
      | Some cs => inr {| cities := cs |}
      | None =>
          inl {| exn_type := ValidationError;
                 exn_str := "validation error for WeatherData" |}
      end
  | _ =>
      inl {| exn_type := ValidationError;
             exn_str := "validation error for WeatherData" |}
  end.

End Schema.

(** ** The selection stage ([DataAnalyzingTask]) *)

Module Analyzing.

Record DataAnalyzingTask : Type := { input_file : string }.

(** [", ".join(best_cities)] *)
Definition join_cities (best_cities : list string) : string :=
  String.concat ", " best_cities.

(** [analyze], with [validate] for [WeatherData(cities=data)].  The
    inner [try] yields [None] where the source returns from the
    handler. *)
Definition analyze (validate : json -> exn + WeatherData)
    (self : DataAnalyzingTask) (E : env) : Stage.M unit :=
  Stage.try_except
    (Stage.logging_info "Starting final data analysis" ;;;
     data <- Stage.load E (input_file self) ;;
     validated <-
       Stage.try_except
         (match validate data with
          | inl e => Stage.raise e
          | inr weather_data => Stage.ret (Some weather_data)
          end)
         [ (Stage.is_ValidationError,
            fun e =>
              Stage.logging_error
                ("Validation error during data analysis: " ++ exn_str e) ;;;
              Stage.ret None) ] ;;
     match validated with
     | None => Stage.ret tt
     | Some weather_data =>
         let s := Selection.select weather_data in
         Stage.logging_info
           ("Most favorable cities for travel: "
            ++ join_cities (Selection.best_cities s))
     end)
    [ (Stage.is_OSError,
       fun e => Stage.logging_error
                  ("Filesystem error during analysis: " ++ exn_str e));
      (Stage.is_JSONDecodeError,
       fun e => Stage.logging_error
                  ("JSON decoding error during analysis: " ++ exn_str e));
      (Stage.is_Exception,
       fun e => Stage.logging_error
                  ("Unexpected error during data analysis: " ++ exn_str e)) ].

End Analyzing.

(** ** Examples used below *)

Module Examples.

Definition day (t : option float) (h : Z) : DayData :=
  {| date := "2022-05-26"; hours_start := Some 9; hours_end := Some 19;
     hours_count := 11; temp_avg := t; relevant_cond_hours := h |}.

Definition twenty : float := PyFloat.of_int 20.

(** A: average 20, 3 hours; B and C: average 20, 5 hours. *)
Definition city_A : CityData := {| days := [day (Some twenty) 3] |}.
Definition city_B : CityData := {| days := [day (Some twenty) 5] |}.
Definition city_C : CityData := {| days := [day (Some twenty) 2; day None 3] |}.

Definition dataset_ABC : WeatherData :=
  {| cities := [("A", city_A); ("B", city_B); ("C", city_C)] |}.

(** A city none of whose days has a temperature. *)
Definition city_N : CityData := {| days := [day None 24; day None 24] |}.

End Examples.

(** ** Example runs of the two stages *)

Module StageExamples.

Definition st0 : state := {| log := []; written := [] |}.

(** A day as the analysis files hold it. *)
Definition json_day (hours_count_ : Z) (t : json) (h : Z) : json :=
  JDict [ ("date", JStr "2022-05-26"); ("hours_start", JInt 9);
          ("hours_end", JInt 19); ("hours_count", JInt hours_count_);
          ("temp_avg", t); ("relevant_cond_hours", JInt h) ].

(** One city, two days without a temperature. *)
Definition data_N : json :=
  JDict [ ("N", JDict [ ("days", JList [json_day 11 JNull 24; json_day 11 JNull 24]) ]) ].

(** Not a mapping of cities. *)
Definition data_bad : json := JList [JInt 1].

(** A day with [hours_count] -1. *)
Definition json_day_negative : json := json_day (-1) (JInt 20) 3.

Definition day_negative : DayData :=
  {| date := "2022-05-26"; hours_start := Some 9; hours_end := Some 19;
     hours_count := -1; temp_avg := Some Examples.twenty;
     relevant_cond_hours := 3 |}.

Definition analyzing_task : Analyzing.DataAnalyzingTask :=
  {| Analyzing.input_file := "./aggregated_data.json" |}.

(** A file system whose aggregated file decodes to [data]. *)
Definition env_with (data : json) : env :=
  {| glob_glob := fun _ => [];
     json_load := fun path =>
       if String.eqb path "./aggregated_data.json" then inr data
       else inl {| exn_type := OSError; exn_str := "No such file or directory" |};
     json_dump := fun _ _ => None |}.

Definition aggregation_task : Aggregation.DataAggregationTask :=
  {| Aggregation.input_folder := "./results";
     Aggregation.output_file := "./aggregated_data.json" |}.

Definition content_A : json := JList [json_day 11 (JInt 20) 3].
Definition content_B : json := JList [json_day 11 (JInt 21) 5].

(** Two analysis files that decode. *)
Definition env_AB : env :=
  {| glob_glob := fun _ =>
       ["./results/A_analysis.json"; "./results/B_analysis.json"];
     json_load := fun path =>
       if String.eqb path "./results/A_analysis.json" then inr content_A
       else if String.eqb path "./results/B_analysis.json" then inr content_B
       else inl {| exn_type := OSError; exn_str := "No such file or directory" |};
     json_dump := fun _ _ => None |}.

(** The same two files, the second one not valid JSON. *)
Definition env_A_broken_B : env :=
  {| glob_glob := fun _ =>
       ["./results/A_analysis.json"; "./results/B_analysis.json"];
     json_load := fun path =>
       if String.eqb path "./results/A_analysis.json" then inr content_A
       else if String.eqb path "./results/B_analysis.json"
       then inl {| exn_type := JSONDecodeError;
                   exn_str := "Expecting value: line 1 column 1 (char 0)" |}
       else inl {| exn_type := OSError; exn_str := "No such file or directory" |};
     json_dump := fun _ _ => None |}.

End StageExamples.

From Stdlib Require Import Sorting.Permutation.

(** ** The final selection as a maximum *)

Module SelectionOrder.
Import Selection.

(** The test of the first branch of the outer loop for [cd] against the
    state [s]: a defined average, greater than the best, or equal to it
    with more hours. *)
Definition beats (s : selection) (cd : CityData) : bool :=
  let a := city_totals cd in
  (0 <? days_count a)
  && (PyFloat.gtb (avg_temp_value a) (max_avg_temp s)
      || (PyFloat.eqb (avg_temp_value a) (max_avg_temp s)
          && (max_clear_hours s <? total_clear_hours a))).

(** The test of the second branch: a defined average equal to the best
    and as many hours. *)
Definition ties (s : selection) (cd : CityData) : bool :=
  let a := city_totals cd in
  (0 <? days_count a)
  && (PyFloat.eqb (avg_temp_value a) (max_avg_temp s)
      && (total_clear_hours a =? max_clear_hours s)).

(** What the pass keeps true of the items processed so far. *)
Definition pass_inv (items : list (string * CityData)) (s : selection) : Prop :=
  PyFloat.is_nan (max_avg_temp s) = false
  /\ (forall item, In item items -> beats s (snd item) = false)
  /\ best_cities s = map fst (filter (fun item => ties s (snd item)) items)
  /\ (best_cities s = [] -> s = selection0).

(** The best average and hours are those of a processed city or the
    initial ones, and the initial ones would not replace them. *)
Definition pass_reach (items : list (string * CityData)) (s : selection) : Prop :=
  ((max_avg_temp s = PyFloat.neg_inf /\ max_clear_hours s = 0)
   \/ (exists item, In item items
                    /\ (0 <? days_count (city_totals (snd item))) = true
                    /\ avg_temp_value (city_totals (snd item)) = max_avg_temp s
                    /\ total_clear_hours (city_totals (snd item)) = max_clear_hours s))
  /\ PyFloat.gtb PyFloat.neg_inf (max_avg_temp s)
     || (PyFloat.eqb PyFloat.neg_inf (max_avg_temp s) && (max_clear_hours s <? 0)) = false.

End SelectionOrder.

(** ** Python string operations used by [main.py] *)

Module PyStr.

(** [s.startswith(p)] *)
Fixpoint startswith (s p : string) {struct p} : bool :=
  match p with
  | EmptyString => true
  | String a p' =>
      match s with
      | EmptyString => false
      | String b s' => Ascii.eqb a b && startswith s' p'
      end
  end.

(** [p in s] *)
Fixpoint contains (p s : string) : bool :=
  startswith s p
  || match s with
     | EmptyString => false
     | String _ r => contains p r
     end.

(** The scan of [str.replace] for a non-empty [old]: left to right, each
    occurrence found is replaced and the scan goes on after it.  [skip]
    counts the characters of the occurrence still to be passed. *)
Fixpoint replace_from (old new : string) (skip : nat) (s : string) : string :=
  match s with
  | EmptyString => EmptyString
  | String c r =>
      match skip with
      | S k => replace_from old new k r
      | O =>
          if startswith s old
          then new ++ replace_from old new (String.length old - 1) r
          else String c (replace_from old new 0 r)
      end
  end.

(** With an empty [old], [new] goes before every character and at the
    end. *)
Fixpoint interleave (new s : string) : string :=
  match s with
  | EmptyString => new
  | String c r => new ++ String c (interleave new r)
  end.

(** [s.replace(old, new)] *)
Definition replace (old new s : string) : string :=
  match old with
  | EmptyString => interleave new s
  | String _ _ => replace_from old new 0 s
  end.

End PyStr.

(** ** [main.py]: paths and the last two stages *)

Module Main.

(** [f"./data/{city}_weather.json"], the output path of the fetch task of
    [city] in [run_data_fetching_tasks]. *)
Definition weather_path (city : string) : string :=
  "./data/" ++ city ++ "_weather.json".

(** [file.replace("data", "results").replace("_weather.json",
    "_analysis.json")], the output path of the calculation task of [file]
    in [run_data_calculation_tasks]. *)
Definition analysis_path (file : string) : string :=
  PyStr.replace "_weather.json" "_analysis.json" (PyStr.replace "data" "results" file).

Definition aggregation_task : Aggregation.DataAggregationTask :=
  {| Aggregation.input_folder := "./results";
     Aggregation.output_file := "./aggregated_data.json" |}.

Definition analyzing_task : Analyzing.DataAnalyzingTask :=
  {| Analyzing.input_file := "./aggregated_data.json" |}.

(** The file system [E] as it reads once the writes recorded in [st] are
    done: a path written reads as the last value written to it. *)
Definition fs_after (E : env) (st : state) : env :=
  {| glob_glob := glob_glob E;
     json_load := fun path =>
       match Aggregation.output_of path st with
       | Some data => inr data
       | None => json_load E path
       end;
     json_dump := json_dump E |}.

(** [run_data_aggregation_task]: one task, started and joined. *)
Definition run_data_aggregation_task (E : env) : Stage.M unit :=
  Aggregation.aggregate aggregation_task E.

(** [run_data_analyzing_task]: one task, started and joined. *)
Definition run_data_analyzing_task (validate : json -> exn + WeatherData)
    (E : env) : Stage.M unit :=
  Analyzing.analyze validate analyzing_task E.

(** The second half of [main]: the aggregation stage, then the selection
    stage on the files as the aggregation left them.  [E] is the file
    system when the aggregation starts.  The first half starts the fetch
    tasks, then the calculation tasks, side by side, and is not part of
    this definition. *)
Definition main_from_aggregation (validate : json -> exn + WeatherData)
    (E : env) : Stage.M unit :=
  Stage.logging_info "Starting data aggregation task" ;;;
  run_data_aggregation_task E ;;;
  Stage.logging_info "Starting data analyzing task" ;;;
  (fun st => run_data_analyzing_task validate (fs_after E st) st).

End Main.

(** ** [os.path.dirname] and truth values *)

Module PyOsPath.

(** [p[:p.rfind("/") + 1]]: [p] up to and with its last slash, empty
    when it has none. *)
Fixpoint through_last_slash (p : string) : string :=
  match p with
  | EmptyString => EmptyString
  | String c r =>
      if PyPath.has_char "/" r then String c (through_last_slash r)
      else if Ascii.eqb c "/" then String c EmptyString
      else EmptyString
  end.

(** [s.rstrip("/")] *)
Fixpoint rstrip_slash (s : string) : string :=
  match s with
  | EmptyString => EmptyString
  | String c r =>
      match rstrip_slash r with
      | EmptyString => if Ascii.eqb c "/" then EmptyString else String c EmptyString
      | r' => String c r'
      end
  end.

(** [os.path.dirname(p)] (POSIX): the head, without its trailing slashes
    unless it is made of slashes only. *)
Definition dirname (p : string) : string :=
  let head := through_last_slash p in
  match rstrip_slash head with
  | EmptyString => head
  | stripped => stripped
  end.

End PyOsPath.

Module PyTruth.

(** [bool(x)] for a decoded JSON value: [None], [False], zero, the
    empty string, the empty list and the empty dict are false. *)
Definition truthy (j : json) : bool :=
  match j with
  | JNull => false
  | JBool b => b
  | JInt n => negb (n =? 0)
  | JFloat x => negb (PyFloat.eqb x PyFloat.zero)
  | JStr s => negb (String.eqb s "")
  | JList l => match l with [] => false | _ => true end
  | JDict d => match d with [] => false | _ => true end
  end.

End PyTruth.

(** ** What the fetch and calculation tasks call outside of [tasks.py] *)

Record externals : Type := {
  (** [utils.CITIES]: city name to forecast address *)
  CITIES : PyDict.dict string;
  (** [YandexWeatherAPI.get_forecasting(url)]: the forecast, or the
      exception raised *)
  get_forecasting : string -> exn + json;
  (** [os.makedirs(path, exist_ok=True)]: [None] when it returns *)
  os_makedirs : string -> option exn;
  (** [external.analyzer.analyze_json(data)] *)
  analyze_json : json -> exn + json;
  (** [external.analyzer.dump_data(data, path)]: [None] when the file
      was written *)
  dump_data : json -> string -> option exn
}.

Module Calls.

(** [CITIES[city_name]]; a missing key raises [KeyError], whose text is
    the quoted key. *)
Definition subscript_CITIES (X : externals) (city_name : string) : Stage.M string :=
  match PyDict.get city_name (CITIES X) with
  | Some url => Stage.ret url
  | None => Stage.raise {| exn_type := OtherException; exn_str := "'" ++ city_name ++ "'" |}
  end.

Definition call_get_forecasting (X : externals) (url : string) : Stage.M json :=
  match get_forecasting X url with
  | inl e => Stage.raise e
  | inr data => Stage.ret data
  end.

Definition makedirs (X : externals) (path : string) : Stage.M unit :=
  match os_makedirs X path with
  | Some e => Stage.raise e
  | None => Stage.ret tt
  end.

Definition call_analyze_json (X : externals) (data : json) : Stage.M json :=
  match analyze_json X data with
  | inl e => Stage.raise e
  | inr analyzed => Stage.ret analyzed
  end.

(** A successful [dump_data] is recorded like a [json.dump]. *)
Definition call_dump_data (X : externals) (data : json) (path : string) : Stage.M unit :=
  match dump_data X data path with
  | Some e => Stage.raise e
  | None =>
      fun st => (inr tt, {| log := log st; written := written st ++ [(path, data)] |})
  end.

End Calls.

(** ** The fetch task ([DataFetchingTask]) *)

Module Fetching.

Record DataFetchingTask : Type := {
  city_name : string;
  output_path : string
}.

(** [fetch_and_save_data].  [is_RequestException] tells which exceptions
    are instances of [requests.exceptions.RequestException], a class
    that [exn_class] does not name.  The [weather_data] attribute is
    kept as the local value the method tests and writes. *)
Definition fetch_and_save_data (is_RequestException : exn_class -> bool)
    (self : DataFetchingTask) (X : externals) (E : env) : Stage.M unit :=
  Stage.try_except
    (Stage.logging_info ("Starting data fetching for city " ++ city_name self) ;;;
     url <- Calls.subscript_CITIES X (city_name self) ;;
     weather_data <- Calls.call_get_forecasting X url ;;
     if negb (PyTruth.truthy weather_data) then Stage.ret tt
     else
       Calls.makedirs X (PyOsPath.dirname (output_path self)) ;;;
       Stage.dump E (output_path self) weather_data ;;;
       Stage.logging_info
         ("Data for city " ++ city_name self ++ " successfully saved in "
          ++ output_path self))
    [ (Stage.is_OSError,
       fun e => Stage.logging_error
                  ("Filesystem error for city " ++ city_name self ++ ": " ++ exn_str e));
      (is_RequestException,
       fun e => Stage.logging_error
                  ("Network error for city " ++ city_name self ++ ": " ++ exn_str e)) ].

End Fetching.

(** ** The calculation task ([DataCalculationTask]) *)

Module Calculation.

Record DataCalculationTask : Type := {
  input_path : string;
  output_path : string
}.

Definition calculate (self : DataCalculationTask) (X : externals) (E : env)
    : Stage.M unit :=
  Stage.try_except
    (Stage.logging_info ("Starting data analysis for file " ++ input_path self) ;;;
     data <- Stage.load E (input_path self) ;;
     Calls.makedirs X (PyOsPath.dirname (output_path self)) ;;;
     analyzed_data <- Calls.call_analyze_json X data ;;
     Calls.call_dump_data X analyzed_data (output_path self) ;;;
     Stage.logging_info
       ("Data successfully analyzed and saved in " ++ output_path self))
    [ (Stage.is_OSError,
       fun e => Stage.logging_error
                  ("Filesystem error during processing file " ++ input_path self
                   ++ ": " ++ exn_str e));
      (Stage.is_JSONDecodeError,
       fun e => Stage.logging_error
                  ("JSON decoding error during processing file " ++ input_path self
                   ++ ": " ++ exn_str e));
      (Stage.is_Exception,
       fun e => Stage.logging_error
                  ("Error during data analysis from file " ++ input_path self
                   ++ ": " ++ exn_str e)) ].

End Calculation.

(** ** More example file systems *)

Module MoreExamples.

Definition contents_AB : list (string * json) :=
  [ ("./results/A_analysis.json", StageExamples.content_A);
    ("./results/B_analysis.json", StageExamples.content_B) ].

Definition permission_denied : exn :=
  {| exn_type := OSError; exn_str := "Permission denied" |}.

(** The two analysis files of [env_AB], and an output file that cannot
    be written. *)
Definition env_AB_readonly : env :=
  {| glob_glob := glob_glob StageExamples.env_AB;
     json_load := json_load StageExamples.env_AB;
     json_dump := fun _ _ => Some permission_denied |}.

(** A file system holding exactly the analysis files [contents], on
    which every write succeeds. *)
Definition env_of (contents : list (string * json)) : env :=
  {| glob_glob := fun _ => map fst contents;
     json_load := fun path =>
       match PyDict.get path contents with
       | Some data => inr data
       | None => inl {| exn_type := OSError; exn_str := "No such file or directory" |}
       end;
     json_dump := fun _ _ => None |}.

(** An analysis file: an object with the days of one city. *)
Definition city_json (ds : list json) : json := JDict [("days", JList ds)].

Definition contents_MP : list (string * json) :=
  [ ("./results/MOSCOW_analysis.json",
     city_json [StageExamples.json_day 11 (JInt 20) 3]);
    ("./results/PARIS_analysis.json",
     city_json [StageExamples.json_day 11 (JInt 21) 5]) ].

Definition wd_MP : WeatherData :=
  {| cities :=
       [ ("MOSCOW", {| days := [Examples.day (Some (PyFloat.of_int 20)) 3] |});
         ("PARIS", {| days := [Examples.day (Some (PyFloat.of_int 21)) 5] |}) ] |}.

(** The same two files, the second one unreadable. *)
Definition env_M_broken_P : env :=
  {| glob_glob := fun _ => map fst contents_MP;
     json_load := fun path =>
       if String.eqb path "./results/MOSCOW_analysis.json"
       then inr (city_json [StageExamples.json_day 11 (JInt 20) 3])
       else inl permission_denied;
     json_dump := fun _ _ => None |}.

End MoreExamples.

(** ** Example surroundings of the fetch and calculation tasks *)

Module TaskExamples.

Definition forecast : json := JDict [("forecasts", JList [])].

(** One known city; the client answers with [forecast]; the analyzer
    wraps its input in a [days] list. *)
Definition externals_ok : externals :=
  {| CITIES := [("MOSCOW", "https://example.org/moscow")];
     get_forecasting := fun _ => inr forecast;
     os_makedirs := fun _ => None;
     analyze_json := fun data => inr (JDict [("days", JList [data])]);
     dump_data := fun _ _ => None |}.

(** The client answers with an empty forecast. *)
Definition externals_empty : externals :=
  {| CITIES := CITIES externals_ok;
     get_forecasting := fun _ => inr (JDict []);
     os_makedirs := os_makedirs externals_ok;
     analyze_json := analyze_json externals_ok;
     dump_data := dump_data externals_ok |}.

Definition timeout : exn := {| exn_type := OSError; exn_str := "Read timed out." |}.

Definition bad_shape : exn := {| exn_type := OtherException; exn_str := "'forecasts'" |}.

(** The client times out; the analyzer raises a [KeyError]. *)
Definition externals_failing : externals :=
  {| CITIES := CITIES externals_ok;
     get_forecasting := fun _ => inl timeout;
     os_makedirs := os_makedirs externals_ok;
     analyze_json := fun _ => inl bad_shape;
     dump_data := dump_data externals_ok |}.


Definition fetch_moscow : Fetching.DataFetchingTask :=
  {| Fetching.city_name := "MOSCOW";
     Fetching.output_path := "./data/MOSCOW_weather.json" |}.

Definition calculate_moscow : Calculation.DataCalculationTask :=
  {| Calculation.input_path := "./data/MOSCOW_weather.json";
     Calculation.output_path := "./results/MOSCOW_analysis.json" |}.

(** A file system with the fetched file of MOSCOW. *)
Definition env_fetched : env :=
  {| glob_glob := fun _ => ["./data/MOSCOW_weather.json"];
     json_load := fun path =>
       if String.eqb path "./data/MOSCOW_weather.json" then inr forecast
       else inl {| exn_type := OSError; exn_str := "No such file or directory" |};
     json_dump := fun _ _ => None |}.

End TaskExamples.

(** * Properties *)

(** ** Float comparison *)

Module PyFloatFacts.

Lemma eqb_cases (x y : float) :
  PyFloat.eqb x y = true ->
  (exists s s', x = S754_zero s /\ y = S754_zero s')
  \/ (x = y /\ PyFloat.is_nan x = false).
Proof.
  unfold PyFloat.eqb, SFeqb.
  destruct x as [sx|sx| |sx mx ex], y as [sy|sy| |sy my ey]; simpl;
    try discriminate;
    try (destruct sx; discriminate); try (destruct sy; discriminate).
  - intros _. left. eauto.
  - destruct sx, sy; try discriminate; intros _; right; auto.
  - destruct sx, sy; try discriminate;
      destruct (Z.compare_spec ex ey) as [He|He|He]; try discriminate;
      destruct (Pos.compare_cont Eq mx my) eqn:Hm; try discriminate;
      intros _; apply Pos.compare_eq in Hm; subst; right; auto.
Qed.

Lemma eqb_refl (x : float) : PyFloat.is_nan x = false -> PyFloat.eqb x x = true.
Proof.
  unfold PyFloat.eqb, SFeqb.
  destruct x as [s|s| |s m e]; simpl; try discriminate; auto.
  - destruct s; auto.
  - intros _. rewrite Z.compare_refl.
    change (Pos.compare_cont Eq m m) with (Pos.compare m m).
    rewrite Pos.compare_refl. destruct s; reflexivity.
Qed.

Lemma eqb_not_nan_l (x y : float) : PyFloat.eqb x y = true -> PyFloat.is_nan x = false.
Proof. unfold PyFloat.eqb, SFeqb. destruct x; simpl; auto; discriminate. Qed.

Lemma gtb_not_nan_l (x y : float) : PyFloat.gtb x y = true -> PyFloat.is_nan x = false.
Proof.
  unfold PyFloat.gtb, SFltb. destruct x; simpl; auto. destruct y; discriminate.
Qed.

(** Two floats equal to a third are equal to each other. *)
Lemma eqb_common (a b m : float) :
  PyFloat.eqb a m = true -> PyFloat.eqb b m = true -> PyFloat.eqb a b = true.
Proof.
  intros Ha Hb.
  destruct (eqb_cases _ _ Ha) as [(s & s' & -> & ->)|[-> Hn]].
  - destruct (eqb_cases _ _ Hb) as [(t & t' & -> & _)|[-> _]]; reflexivity.
  - destruct (eqb_cases _ _ Hb) as [(t & t' & -> & ->)|[-> _]].
    + reflexivity.
    + now apply eqb_refl.
Qed.

End PyFloatFacts.

(** ** The per-city totals *)

Module SelectionFacts.
Import Selection.

(** The inner loop in closed form, from any accumulator. *)
Lemma fold_day_step (ds : list DayData) (a : totals) :
  fold_left day_step ds a =
  {| total_temp := fold_left PyFloat.add (defined_temps ds) (total_temp a);
     total_clear_hours := total_clear_hours a + spec_total_hours ds;
     days_count := days_count a + Z.of_nat (List.length (defined_temps ds)) |}.
Proof.
  revert a. induction ds as [|d ds IH]; intros a.
  - destruct a; unfold spec_total_hours; simpl. f_equal; lia.
  - simpl. rewrite IH. unfold day_step, spec_total_hours.
    destruct (temp_avg d); simpl; f_equal; lia.
Qed.

Lemma city_totals_closed (cd : CityData) :
  city_totals cd =
  {| total_temp := fsum (defined_temps (days cd));
     total_clear_hours := spec_total_hours (days cd);
     days_count := Z.of_nat (List.length (defined_temps (days cd))) |}.
Proof. unfold city_totals. rewrite fold_day_step. reflexivity. Qed.

Lemma defined_temps_nil_iff (ds : list DayData) :
  defined_temps ds = [] <-> (forall d, In d ds -> temp_avg d = None).
Proof.
  induction ds as [|d ds IH]; simpl.
  - split; [intros _ ? []|reflexivity].
  - destruct (temp_avg d) eqn:Ht.
    + split; [discriminate|]. intros H. specialize (H d (or_introl eq_refl)).
      congruence.
    + rewrite IH. split.
      * intros H x [<-|Hx]; auto.
      * intros H x Hx. apply H. now right.
Qed.

Lemma defined_temps_cons_iff (ds : list DayData) :
  defined_temps ds <> [] <-> (exists d t, In d ds /\ temp_avg d = Some t).
Proof.
  split.
  - induction ds as [|d ds IH]; simpl; [congruence|].
    destruct (temp_avg d) as [t|] eqn:Ht.
    + intros _. exists d, t. auto.
    + intros H. destruct (IH H) as (x & t & Hx & Hxt). exists x, t. auto.
  - intros (d & t & Hd & Ht) Hnil.
    rewrite defined_temps_nil_iff in Hnil. rewrite (Hnil d Hd) in Ht. discriminate.
Qed.

Lemma days_count_positive (cd : CityData) :
  (0 <? days_count (city_totals cd)) = true <-> defined_temps (days cd) <> [].
Proof.
  rewrite city_totals_closed; simpl. rewrite Z.ltb_lt.
  destruct (defined_temps (days cd)); simpl; split; try lia; congruence.
Qed.

Lemma spec_avg_temp_value (cd : CityData) :
  spec_avg_temp (days cd) =
  if 0 <? days_count (city_totals cd)
  then Some (avg_temp_value (city_totals cd)) else None.
Proof.
  unfold spec_avg_temp, avg_temp_value. rewrite city_totals_closed; simpl.
  destruct (defined_temps (days cd)) as [|t ts]; reflexivity.
Qed.

(** The outer loop's body over the quantities of the specification. *)
Lemma city_step_closed (s : selection) (city : string) (cd : CityData) :
  city_step s (city, cd) =
  match spec_avg_temp (days cd) with
  | None => s
  | Some avg =>
      let h := spec_total_hours (days cd) in
      if PyFloat.gtb avg (max_avg_temp s)
         || (PyFloat.eqb avg (max_avg_temp s) && (max_clear_hours s <? h))
      then {| best_cities := [city]; max_avg_temp := avg; max_clear_hours := h |}
      else if PyFloat.eqb avg (max_avg_temp s) && (h =? max_clear_hours s)
      then {| best_cities := best_cities s ++ [city];
              max_avg_temp := max_avg_temp s;
              max_clear_hours := max_clear_hours s |}
      else s
  end.
Proof.
  unfold city_step. rewrite spec_avg_temp_value.
  destruct (0 <? days_count (city_totals cd)); [|reflexivity].
  cbv zeta.
  replace (total_clear_hours (city_totals cd)) with (spec_total_hours (days cd))
    by (rewrite city_totals_closed; reflexivity).
  reflexivity.
Qed.

Lemma select_from_snoc (s : selection) (items : list (string * CityData))
    (item : string * CityData) :
  select_from s (items ++ [item]) = city_step (select_from s items) item.
Proof. unfold select_from. now rewrite fold_left_app. Qed.

End SelectionFacts.

(** ** The selection rule *)

(** C1: the best set is computed by one left-to-right pass over the
    dataset's items; a city with a defined average replaces the whole best
    set when its average is greater than the running best average, or
    equal to it with more favourable hours than the running best hours; it
    is appended when it equals the best on both; otherwise it is dropped.
    On A (20, 3), B (20, 5), C (20, 5) in that order the best set is B, C. *)
Theorem select_single_pass_rule :
  (forall (s : Selection.selection) (items : list (string * CityData))
          (item : string * CityData),
      Selection.select_from s (items ++ [item]) =
      Selection.city_step (Selection.select_from s items) item)
  /\ (forall (s : Selection.selection) (city : string) (cd : CityData) (avg : float),
         Selection.spec_avg_temp (days cd) = Some avg ->
         let h := Selection.spec_total_hours (days cd) in
         let best_avg := Selection.max_avg_temp s in
         let best_hours := Selection.max_clear_hours s in
         Selection.city_step s (city, cd) =
         if PyFloat.gtb avg best_avg || (PyFloat.eqb avg best_avg && (best_hours <? h))
         then {| Selection.best_cities := [city];
                 Selection.max_avg_temp := avg;
                 Selection.max_clear_hours := h |}
         else if PyFloat.eqb avg best_avg && (h =? best_hours)
         then {| Selection.best_cities := Selection.best_cities s ++ [city];
                 Selection.max_avg_temp := best_avg;
                 Selection.max_clear_hours := best_hours |}
         else s)
  /\ Selection.select Examples.dataset_ABC =
     {| Selection.best_cities := ["B"; "C"];
        Selection.max_avg_temp := Examples.twenty;
        Selection.max_clear_hours := 5 |}.
Proof.
  split; [|split].
  - apply SelectionFacts.select_from_snoc.
  - intros s city cd avg Havg. rewrite SelectionFacts.city_step_closed, Havg.
    reflexivity.
  - vm_compute. reflexivity.
Qed.

Lemma select_single_pass_rule_witness :
  Selection.spec_avg_temp (days Examples.city_B) = Some Examples.twenty
  /\ Selection.city_step
       {| Selection.best_cities := ["A"];
          Selection.max_avg_temp := Examples.twenty;
          Selection.max_clear_hours := 3 |}
       ("B", Examples.city_B) =
     {| Selection.best_cities := ["B"];
        Selection.max_avg_temp := Examples.twenty;
        Selection.max_clear_hours := 5 |}.
Proof.
  split; [vm_compute; reflexivity|].
  exact (proj1 (proj2 select_single_pass_rule)
           {| Selection.best_cities := ["A"];
              Selection.max_avg_temp := Examples.twenty;
              Selection.max_clear_hours := 3 |}
           "B" Examples.city_B Examples.twenty eq_refl).
Defined.

(** C2: for a city with at least one day that has a [temp_avg], the
    average the selection uses is the sum of [temp_avg] over the days that
    have one divided by the number of such days, and it is the same for
    any other day list with the same defined temperatures, whatever its
    days without a temperature. *)
Theorem city_average_is_sum_over_count (cd : CityData) :
  (exists d t, In d (days cd) /\ temp_avg d = Some t) ->
  let a := Selection.city_totals cd in
  let ts := Selection.defined_temps (days cd) in
  (0 <? Selection.days_count a) = true
  /\ Selection.avg_temp_value a =
     PyFloat.div (Selection.fsum ts) (PyFloat.of_int (Z.of_nat (List.length ts)))
  /\ (forall cd' : CityData,
         Selection.defined_temps (days cd') = ts ->
         Selection.avg_temp_value (Selection.city_totals cd') =
         Selection.avg_temp_value a)
  /\ (forall (ds1 ds2 : list DayData) (d : DayData),
         days cd = ds1 ++ ds2 -> temp_avg d = None ->
         Selection.avg_temp_value (Selection.city_totals {| days := ds1 ++ d :: ds2 |}) =
         Selection.avg_temp_value a).
Proof.
  intros Hex a ts.
  assert (Hclosed : forall c, Selection.avg_temp_value (Selection.city_totals c) =
            PyFloat.div (Selection.fsum (Selection.defined_temps (days c)))
              (PyFloat.of_int (Z.of_nat (List.length (Selection.defined_temps (days c)))))).
  { intros c. rewrite SelectionFacts.city_totals_closed. reflexivity. }
  assert (Happ : forall l1 l2, Selection.defined_temps (l1 ++ l2) =
            Selection.defined_temps l1 ++ Selection.defined_temps l2).
  { induction l1 as [|x l1 IH]; intros l2; simpl; [reflexivity|].
    destruct (temp_avg x); simpl; now rewrite IH. }
  repeat split.
  - apply SelectionFacts.days_count_positive.
    now apply SelectionFacts.defined_temps_cons_iff.
  - apply Hclosed.
  - intros cd' Heq. subst a. rewrite !Hclosed, Heq. reflexivity.
  - intros ds1 ds2 d Hds Hd. subst a ts. rewrite !Hclosed. simpl.
    rewrite Hds, !Happ. simpl. rewrite Hd. reflexivity.
Qed.

Lemma city_average_is_sum_over_count_witness :
  (exists d t, In d (days Examples.city_C) /\ temp_avg d = Some t)
  /\ Selection.avg_temp_value (Selection.city_totals Examples.city_C) = Examples.twenty.
Proof.
  assert (H : exists d t, In d (days Examples.city_C) /\ temp_avg d = Some t).
  { exists (Examples.day (Some Examples.twenty) 2), Examples.twenty.
    split; [left|]; reflexivity. }
  split; [exact H|].
  rewrite (proj1 (proj2 (city_average_is_sum_over_count Examples.city_C H))).
  vm_compute. reflexivity.
Defined.

(** C3: for every city, the favourable hours the selection uses are the
    sum of [relevant_cond_hours] over all its days, the days without a
    [temp_avg] included. *)
Theorem city_hours_is_sum_over_all_days (cd : CityData) :
  Selection.total_clear_hours (Selection.city_totals cd) =
  fold_right Z.add 0 (map relevant_cond_hours (days cd))
  /\ (forall (ds1 ds2 : list DayData) (d : DayData),
         days cd = ds1 ++ d :: ds2 ->
         Selection.total_clear_hours (Selection.city_totals cd) =
         Selection.total_clear_hours (Selection.city_totals {| days := ds1 ++ ds2 |})
         + relevant_cond_hours d).
Proof.
  split.
  - rewrite SelectionFacts.city_totals_closed. reflexivity.
  - intros ds1 ds2 d Hds. rewrite !SelectionFacts.city_totals_closed. simpl.
    rewrite Hds. unfold Selection.spec_total_hours.
    rewrite !map_app. simpl. rewrite !fold_right_app. simpl. clear Hds.
    generalize (fold_right Z.add 0 (map relevant_cond_hours ds2)) as r.
    induction ds1 as [|x ds1 IH]; intros r; simpl; [lia|].
    rewrite IH. lia.
Qed.

Lemma city_hours_is_sum_over_all_days_witness :
  days Examples.city_C = [Examples.day (Some Examples.twenty) 2] ++ Examples.day None 3 :: []
  /\ Selection.total_clear_hours (Selection.city_totals Examples.city_C) = 2 + 3.
Proof.
  split; [reflexivity|].
  exact (proj2 (city_hours_is_sum_over_all_days Examples.city_C)
           [Examples.day (Some Examples.twenty) 2] [] (Examples.day None 3) eq_refl).
Defined.

(** ** The invariant of the selection pass *)

Module SelectionInvariant.
Import Selection.

Lemma best_ok_step (items : list (string * CityData)) (s : selection)
    (item : string * CityData) :
  best_ok items s -> best_ok (items ++ [item]) (city_step s item).
Proof.
  intros Hok. destruct item as [city cd].
  assert (Hkeep : best_ok (items ++ [(city, cd)]) s).
  { intros name Hin. destruct (Hok name Hin) as (cd' & Hcd' & Ht).
    exists cd'. split; [apply in_or_app; now left|exact Ht]. }
  rewrite SelectionFacts.city_step_closed.
  destruct (spec_avg_temp (days cd)) as [avg|] eqn:Havg; [|exact Hkeep].
  cbv zeta.
  destruct (PyFloat.gtb avg (max_avg_temp s)
            || PyFloat.eqb avg (max_avg_temp s)
               && (max_clear_hours s <? spec_total_hours (days cd))) eqn:Hwin.
  - intros name [<-|[]]. exists cd. split; [apply in_or_app; right; now left|].
    exists avg; simpl. repeat split; auto.
    apply PyFloatFacts.eqb_refl.
    apply orb_true_iff in Hwin as [Hgt|Heq].
    + eapply PyFloatFacts.gtb_not_nan_l; eauto.
    + apply andb_true_iff in Heq as [Heq _].
      eapply PyFloatFacts.eqb_not_nan_l; eauto.
  - destruct (PyFloat.eqb avg (max_avg_temp s)
              && (spec_total_hours (days cd) =? max_clear_hours s)) eqn:Htie;
      [|exact Hkeep].
    apply andb_true_iff in Htie as [Heq Hh]. apply Z.eqb_eq in Hh.
    intros name Hin. simpl in Hin. apply in_app_or in Hin as [Hin|[<-|[]]].
    + destruct (Hkeep name Hin) as (cd' & Hcd' & avg' & H1 & H2 & H3).
      exists cd'. split; [exact Hcd'|]. exists avg'. simpl. auto.
    + exists cd. split; [apply in_or_app; right; now left|].
      exists avg. simpl. auto.
Qed.

Lemma best_ok_select (items : list (string * CityData)) :
  best_ok items (select_from selection0 items).
Proof.
  induction items as [|item items IH] using rev_ind.
  - intros name [].
  - rewrite SelectionFacts.select_from_snoc. now apply best_ok_step.
Qed.

(** In a dict a key has one value. *)
Lemma nodup_keys_functional {V} (items : list (string * V)) (k : string) (v v' : V) :
  NoDup (map fst items) -> In (k, v) items -> In (k, v') items -> v = v'.
Proof.
  induction items as [|[k0 v0] items IH]; simpl; [intros _ []|].
  intros Hnd Hv Hv'. inversion Hnd as [|? ? Hnotin Hnd']; subst.
  destruct Hv as [Hv|Hv], Hv' as [Hv'|Hv'].
  - congruence.
  - inversion Hv; subst. exfalso. apply Hnotin.
    change k with (fst (k, v')). now apply in_map.
  - inversion Hv'; subst. exfalso. apply Hnotin.
    change k with (fst (k, v)). now apply in_map.
  - now apply IH.
Qed.

(** With no defined temperature the step changes nothing. *)
Lemma city_step_undefined (s : selection) (city : string) (cd : CityData) :
  (forall d, In d (days cd) -> temp_avg d = None) ->
  city_step s (city, cd) = s.
Proof.
  intros Hnone. rewrite SelectionFacts.city_step_closed.
  unfold spec_avg_temp.
  now rewrite (proj2 (SelectionFacts.defined_temps_nil_iff (days cd)) Hnone).
Qed.

Lemma select_from_all_undefined (items : list (string * CityData)) (s : selection) :
  (forall city cd d, In (city, cd) items -> In d (days cd) -> temp_avg d = None) ->
  select_from s items = s.
Proof.
  unfold select_from. revert s.
  induction items as [|[city cd] items IH]; intros s Hnone; cbn [fold_left];
    [reflexivity|].
  rewrite city_step_undefined.
  - apply IH. intros c' cd' d Hin Hd. apply (Hnone c' cd' d); [now right|exact Hd].
  - intros d Hd. apply (Hnone city cd d); [now left|exact Hd].
Qed.

(** A tied city, in the terms of the loop's own variables. *)
Lemma tied_totals (s : selection) (cd : CityData) :
  tied s cd ->
  (0 <? days_count (city_totals cd)) = true
  /\ PyFloat.eqb (avg_temp_value (city_totals cd)) (max_avg_temp s) = true
  /\ total_clear_hours (city_totals cd) = max_clear_hours s.
Proof.
  intros (avg & Havg & Heq & Hh).
  rewrite SelectionFacts.spec_avg_temp_value in Havg.
  destruct (0 <? days_count (city_totals cd)); [|discriminate].
  injection Havg as <-. repeat split; auto.
  rewrite SelectionFacts.city_totals_closed. exact Hh.
Qed.

End SelectionInvariant.

(** C4: a city all of whose days lack a [temp_avg] (a city with no day
    included) leaves the best set, the running best average and the
    running best hours as they are, whatever its favourable hours, and is
    in the best set at no point of the pass. *)
Theorem undefined_city_never_candidate (city : string) (cd : CityData) :
  (forall d, In d (days cd) -> temp_avg d = None) ->
  (forall s : Selection.selection, Selection.city_step s (city, cd) = s)
  /\ (forall (wd : WeatherData) (pre post : list (string * CityData)),
         NoDup (map fst (cities wd)) ->
         In (city, cd) (cities wd) ->
         cities wd = pre ++ post ->
         ~ In city (Selection.best_cities (Selection.select_from Selection.selection0 pre))).
Proof.
  intros Hnone. split.
  - intros s. now apply SelectionInvariant.city_step_undefined.
  - intros wd pre post Hnd Hin Hsplit Hbest.
    destruct (SelectionInvariant.best_ok_select pre city Hbest)
      as (cd' & Hcd' & avg & Havg & _).
    assert (Hin' : In (city, cd') (cities wd)).
    { rewrite Hsplit. apply in_or_app. now left. }
    rewrite (SelectionInvariant.nodup_keys_functional _ _ _ _ Hnd Hin' Hin) in Havg.
    unfold Selection.spec_avg_temp in Havg.
    rewrite (proj2 (SelectionFacts.defined_temps_nil_iff (days cd)) Hnone) in Havg.
    discriminate.
Qed.

Lemma undefined_city_never_candidate_witness :
  (forall d, In d (days Examples.city_N) -> temp_avg d = None)
  /\ Selection.city_step (Selection.select Examples.dataset_ABC) ("N", Examples.city_N) =
     Selection.select Examples.dataset_ABC.
Proof.
  assert (H : forall d, In d (days Examples.city_N) -> temp_avg d = None).
  { intros d [<-|[<-|[]]]; reflexivity. }
  split; [exact H|].
  exact (proj1 (undefined_city_never_candidate "N" Examples.city_N H)
           (Selection.select Examples.dataset_ABC)).
Defined.

(** C9: at every point of the pass, the end included, every city of the
    best set has a defined average equal to the running best average and
    favourable hours equal to the running best hours; so any two members
    of the best set are tied on both. *)
Theorem best_set_members_tied (wd : WeatherData) (pre post : list (string * CityData)) :
  NoDup (map fst (cities wd)) ->
  cities wd = pre ++ post ->
  let s := Selection.select_from Selection.selection0 pre in
  (forall name cd,
      In name (Selection.best_cities s) -> In (name, cd) (cities wd) ->
      let a := Selection.city_totals cd in
      (0 <? Selection.days_count a) = true
      /\ PyFloat.eqb (Selection.avg_temp_value a) (Selection.max_avg_temp s) = true
      /\ Selection.total_clear_hours a = Selection.max_clear_hours s)
  /\ (forall n1 cd1 n2 cd2,
         In n1 (Selection.best_cities s) -> In (n1, cd1) (cities wd) ->
         In n2 (Selection.best_cities s) -> In (n2, cd2) (cities wd) ->
         let a1 := Selection.city_totals cd1 in
         let a2 := Selection.city_totals cd2 in
         PyFloat.eqb (Selection.avg_temp_value a1) (Selection.avg_temp_value a2) = true
         /\ Selection.total_clear_hours a1 = Selection.total_clear_hours a2).
Proof.
  intros Hnd Hsplit s.
  assert (Hmem : forall name cd,
             In name (Selection.best_cities s) -> In (name, cd) (cities wd) ->
             (0 <? Selection.days_count (Selection.city_totals cd)) = true
             /\ PyFloat.eqb (Selection.avg_temp_value (Selection.city_totals cd))
                  (Selection.max_avg_temp s) = true
             /\ Selection.total_clear_hours (Selection.city_totals cd) =
                Selection.max_clear_hours s).
  { intros name cd Hbest Hin.
    destruct (SelectionInvariant.best_ok_select pre name Hbest) as (cd' & Hcd' & Ht).
    assert (Hin' : In (name, cd') (cities wd)).
    { rewrite Hsplit. apply in_or_app. now left. }
    rewrite (SelectionInvariant.nodup_keys_functional _ _ _ _ Hnd Hin Hin').
    now apply SelectionInvariant.tied_totals. }
  split.
  - exact Hmem.
  - intros n1 cd1 n2 cd2 Hb1 Hi1 Hb2 Hi2 a1 a2.
    destruct (Hmem n1 cd1 Hb1 Hi1) as (_ & He1 & Hh1).
    destruct (Hmem n2 cd2 Hb2 Hi2) as (_ & He2 & Hh2).
    split.
    + eapply PyFloatFacts.eqb_common; eauto.
    + subst a1 a2. congruence.
Qed.

Lemma best_set_members_tied_witness :
  NoDup (map fst (cities Examples.dataset_ABC))
  /\ forall name cd,
       In name (Selection.best_cities (Selection.select Examples.dataset_ABC)) ->
       In (name, cd) (cities Examples.dataset_ABC) ->
       (0 <? Selection.days_count (Selection.city_totals cd)) = true
       /\ PyFloat.eqb (Selection.avg_temp_value (Selection.city_totals cd))
            (Selection.max_avg_temp (Selection.select Examples.dataset_ABC)) = true
       /\ Selection.total_clear_hours (Selection.city_totals cd) =
          Selection.max_clear_hours (Selection.select Examples.dataset_ABC).
Proof.
  assert (Hnd : NoDup (map fst (cities Examples.dataset_ABC))).
  { simpl. repeat constructor; simpl; intuition discriminate. }
  split; [exact Hnd|].
  exact (proj1 (best_set_members_tied Examples.dataset_ABC
                  (cities Examples.dataset_ABC) [] Hnd
                  (eq_sym (app_nil_r _)))).
Defined.

(** C10: on a validated dataset in which no day of any city has a
    [temp_avg] (the empty dataset included) the pass ends in its initial
    state: empty best set, best average minus infinity, best hours 0; the
    stage raises nothing and logs the empty list of cities. *)
Theorem no_defined_temperature_selects_nothing
    (validate : json -> exn + WeatherData) (self : Analyzing.DataAnalyzingTask)
    (E : env) (st : state) (data : json) (wd : WeatherData) :
  (forall city cd d, In (city, cd) (cities wd) -> In d (days cd) -> temp_avg d = None) ->
  json_load E (Analyzing.input_file self) = inr data ->
  validate data = inr wd ->
  Selection.select wd =
    {| Selection.best_cities := [];
       Selection.max_avg_temp := PyFloat.neg_inf;
       Selection.max_clear_hours := 0 |}
  /\ Analyzing.analyze validate self E st =
     (inr tt,
      {| log := log st
                ++ [ {| level := INFO; message := "Starting final data analysis" |};
                     {| level := INFO; message := "Most favorable cities for travel: " |} ];
         written := written st |}).
Proof.
  intros Hnone Hload Hval.
  assert (Hsel : Selection.select wd = Selection.selection0).
  { unfold Selection.select, Selection.selection0.
    now apply SelectionInvariant.select_from_all_undefined. }
  split; [exact Hsel|].
  unfold Analyzing.analyze, Stage.try_except, Stage.bind, Stage.load,
    Stage.logging_info, Stage.emit, Stage.ret.
  rewrite Hload, Hval, Hsel. simpl. rewrite <- app_assoc. reflexivity.
Qed.

(** ** Validation failure in the selection stage *)

(** C7: when [WeatherData(cities=data)] raises [ValidationError], the
    stage logs the failure and returns: no best set is computed or
    logged, nothing is written, no exception leaves the stage. *)
Theorem validation_failure_ends_stage
    (validate : json -> exn + WeatherData) (self : Analyzing.DataAnalyzingTask)
    (E : env) (st : state) (data : json) (e : exn) :
  json_load E (Analyzing.input_file self) = inr data ->
  validate data = inl e ->
  exn_type e = ValidationError ->
  Analyzing.analyze validate self E st =
  (inr tt,
   {| log := log st
             ++ [ {| level := INFO; message := "Starting final data analysis" |};
                  {| level := ERROR;
                     message := "Validation error during data analysis: " ++ exn_str e |} ];
      written := written st |}).
Proof.
  intros Hload Hval Hty.
  unfold Analyzing.analyze, Stage.try_except, Stage.bind, Stage.load,
    Stage.logging_info, Stage.logging_error, Stage.emit, Stage.ret, Stage.raise.
  rewrite Hload, Hval. simpl. rewrite Hty. simpl.
  rewrite <- app_assoc. reflexivity.
Qed.

Lemma no_defined_temperature_selects_nothing_witness :
  Schema.validate_WeatherData StageExamples.data_N =
    inr {| cities := [("N", Examples.city_N)] |}
  /\ Selection.select {| cities := [("N", Examples.city_N)] |} =
     {| Selection.best_cities := [];
        Selection.max_avg_temp := PyFloat.neg_inf;
        Selection.max_clear_hours := 0 |}.
Proof.
  split; [reflexivity|].
  refine (proj1 (no_defined_temperature_selects_nothing
                   Schema.validate_WeatherData StageExamples.analyzing_task
                   (StageExamples.env_with StageExamples.data_N) StageExamples.st0
                   StageExamples.data_N {| cities := [("N", Examples.city_N)] |}
                   _ eq_refl eq_refl)).
  intros city cd d [Hc|[]] Hd. inversion Hc; subst cd.
  destruct Hd as [<-|[<-|[]]]; reflexivity.
Defined.

Lemma validation_failure_ends_stage_witness :
  Schema.validate_WeatherData StageExamples.data_bad =
    inl {| exn_type := ValidationError; exn_str := "validation error for WeatherData" |}
  /\ Analyzing.analyze Schema.validate_WeatherData StageExamples.analyzing_task
       (StageExamples.env_with StageExamples.data_bad) StageExamples.st0 =
     (inr tt,
      {| log := [ {| level := INFO; message := "Starting final data analysis" |};
                  {| level := ERROR;
                     message := "Validation error during data analysis: validation error for WeatherData" |} ];
         written := [] |}).
Proof.
  split; [reflexivity|].
  exact (validation_failure_ends_stage
           Schema.validate_WeatherData StageExamples.analyzing_task
           (StageExamples.env_with StageExamples.data_bad) StageExamples.st0
           StageExamples.data_bad
           {| exn_type := ValidationError; exn_str := "validation error for WeatherData" |}
           eq_refl eq_refl eq_refl).
Defined.

(** ** The schema and [hours_count] *)

(** C8, as stated, fails: a day whose [hours_count] is -1 is accepted,
    alone and inside a dataset, and is then a day of the selection. *)
Lemma negative_hours_count_accepted :
  Schema.validate_DayData StageExamples.json_day_negative = Some StageExamples.day_negative
  /\ Schema.validate_WeatherData
       (JDict [("A", JDict [("days", JList [StageExamples.json_day_negative])])]) =
     inr {| cities := [("A", {| days := [StageExamples.day_negative] |})] |}
  /\ ~ (hours_count StageExamples.day_negative >= 0).
Proof.
  split; [reflexivity|]. split; [reflexivity|]. simpl. lia.
Qed.

(** C8, amended: the schema asks [hours_count] to be an integer and
    nothing more; a day whose [hours_count] is any integer [z], negative
    or not, is accepted with [hours_count = z], so the validated value
    is non-negative exactly when the input's is. *)
Theorem hours_count_any_integer (dt : string) (z r : Z) (city : string) :
  let j := JDict [ ("date", JStr dt); ("hours_count", JInt z);
                   ("relevant_cond_hours", JInt r) ] in
  let d := {| date := dt; hours_start := None; hours_end := None;
              hours_count := z; temp_avg := None; relevant_cond_hours := r |} in
  Schema.validate_DayData j = Some d
  /\ Schema.validate_WeatherData (JDict [(city, JDict [("days", JList [j])])]) =
     inr {| cities := [(city, {| days := [d] |})] |}
  /\ (hours_count d >= 0 <-> z >= 0).
Proof.
  intros j d. split; [reflexivity|]. split; [reflexivity|]. reflexivity.
Qed.

(** ** Dicts and paths *)

Module PyDictFacts.
Import PyDict.

Lemma get_set_same {V} (k : string) (v : V) (d : dict V) :
  get k (set k v d) = Some v.
Proof.
  induction d as [|[k' v'] d IH]; simpl.
  - now rewrite String.eqb_refl.
  - destruct (String.eqb k' k) eqn:Hk; simpl.
    + now rewrite String.eqb_refl.
    + now rewrite Hk.
Qed.

Lemma get_set_other {V} (k k' : string) (v : V) (d : dict V) :
  k <> k' -> get k (set k' v d) = get k d.
Proof.
  intros Hne. induction d as [|[k0 v0] d IH]; simpl.
  - destruct (String.eqb_spec k' k); congruence.
  - destruct (String.eqb_spec k0 k'); simpl.
    + subst k0. destruct (String.eqb_spec k' k); congruence.
    + destruct (String.eqb_spec k0 k); auto.
Qed.

Lemma keys_set {V} (k k' : string) (v : V) (d : dict V) :
  In k (keys (set k' v d)) <-> k = k' \/ In k (keys d).
Proof.
  unfold keys. induction d as [|[k0 v0] d IH]; simpl.
  - intuition.
  - destruct (String.eqb_spec k0 k'); simpl.
    + subst. intuition.
    + rewrite IH. intuition.
Qed.

Lemma length_set_fresh {V} (k : string) (v : V) (d : dict V) :
  ~ In k (keys d) -> List.length (set k v d) = S (List.length d).
Proof.
  unfold keys. induction d as [|[k0 v0] d IH]; simpl; intros Hnot.
  - reflexivity.
  - destruct (String.eqb_spec k0 k).
    + exfalso. apply Hnot. now left.
    + simpl. rewrite IH; auto.
Qed.

End PyDictFacts.

Module PyPathFacts.
Import PyPath.

Lemma has_char_app (c : ascii) (s t : string) :
  has_char c (s ++ t) = has_char c s || has_char c t.
Proof.
  induction s as [|c' s IH]; simpl; [reflexivity|].
  now rewrite IH, orb_assoc.
Qed.

Lemma split_head_app (sep : ascii) (key rest : string) :
  has_char sep key = false ->
  split_head sep (key ++ String sep rest) = key.
Proof.
  induction key as [|c key IH]; simpl.
  - now rewrite Ascii.eqb_refl.
  - intros H. apply orb_false_iff in H as [Hc Hk].
    rewrite Hc. now rewrite IH.
Qed.

Lemma split_head_none (sep : ascii) (s : string) :
  has_char sep s = false -> split_head sep s = s.
Proof.
  induction s as [|c s IH]; simpl; [reflexivity|].
  intros H. apply orb_false_iff in H as [Hc Hk].
  rewrite Hc. now rewrite IH.
Qed.

Lemma after_last_slash_none (s : string) :
  has_char "/" s = false -> after_last_slash s = None.
Proof.
  induction s as [|c s IH]; simpl; [reflexivity|].
  intros H. apply orb_false_iff in H as [Hc Hk].
  now rewrite IH, Hc.
Qed.

Lemma after_last_slash_app (dir base : string) :
  has_char "/" base = false ->
  after_last_slash (dir ++ String "/" base) = Some base.
Proof.
  intros Hb. induction dir as [|c dir IH]; simpl.
  - now rewrite after_last_slash_none.
  - now rewrite IH.
Qed.

Lemma basename_app (dir base : string) :
  has_char "/" base = false -> basename (dir ++ String "/" base) = base.
Proof. intros Hb. unfold basename. now rewrite after_last_slash_app. Qed.

Lemma basename_plain (s : string) :
  has_char "/" s = false -> basename s = s.
Proof. intros Hs. unfold basename. now rewrite after_last_slash_none. Qed.

End PyPathFacts.

(** ** The merge of the aggregation stage *)

Module AggregationFacts.
Import Aggregation.

Lemma city_name_of_path (dir key rest : string) :
  PyPath.has_char "/" key = false ->
  PyPath.has_char "_" key = false ->
  PyPath.has_char "/" rest = false ->
  city_name_of (dir ++ "/" ++ key ++ "_" ++ rest) = key.
Proof.
  intros Hk1 Hk2 Hr. unfold city_name_of.
  change (dir ++ "/" ++ key ++ "_" ++ rest)%string
    with (dir ++ String "/" (key ++ String "_" rest))%string.
  rewrite PyPathFacts.basename_app.
  - now apply PyPathFacts.split_head_app.
  - rewrite PyPathFacts.has_char_app, Hk1. simpl. exact Hr.
Qed.

Lemma merge_files_loaded (E : env) (contents : list (string * json))
    (d : PyDict.dict json) (st : state) :
  (forall f j, In (f, j) contents -> json_load E f = inr j) ->
  merge_files E (map fst contents) d st = (inr (merged contents d), st).
Proof.
  revert d. induction contents as [|[f j] contents IH]; intros d Hload; simpl.
  - reflexivity.
  - unfold Stage.bind, Stage.load. rewrite (Hload f j (or_introl eq_refl)).
    simpl. apply IH. intros f' j' Hin. apply Hload. now right.
Qed.

Lemma merge_files_fails (E : env) (contents : list (string * json))
    (f : string) (post : list string) (e : exn) (d : PyDict.dict json) (st : state) :
  (forall g j, In (g, j) contents -> json_load E g = inr j) ->
  json_load E f = inl e ->
  merge_files E (map fst contents ++ f :: post) d st = (inl e, st).
Proof.
  revert d. induction contents as [|[g j] contents IH]; intros d Hload Hf; simpl.
  - unfold Stage.bind, Stage.load. rewrite Hf. reflexivity.
  - unfold Stage.bind, Stage.load. rewrite (Hload g j (or_introl eq_refl)).
    simpl. apply IH; auto. intros g' j' Hin. apply Hload. now right.
Qed.

Lemma merged_keys (contents : list (string * json)) (d : PyDict.dict json) (k : string) :
  In k (PyDict.keys (merged contents d)) <->
  In k (PyDict.keys d) \/ exists f, In f (map fst contents) /\ city_name_of f = k.
Proof.
  unfold merged. revert d.
  induction contents as [|[f j] contents IH]; intros d; simpl.
  - split; [auto|]. intros [H|(f & [] & _)]; exact H.
  - rewrite IH, PyDictFacts.keys_set. split.
    + intros [[->|H]|(g & Hg & Hk)]; eauto.
    + intros [H|(g & [<-|Hg] & Hk)]; eauto.
Qed.

Lemma merged_get_untouched (contents : list (string * json)) (d : PyDict.dict json)
    (k : string) :
  (forall g, In g (map fst contents) -> city_name_of g <> k) ->
  PyDict.get k (merged contents d) = PyDict.get k d.
Proof.
  unfold merged. revert d.
  induction contents as [|[f j] contents IH]; intros d Hne; simpl; [reflexivity|].
  rewrite IH by (intros g Hg; apply Hne; now right).
  apply PyDictFacts.get_set_other. intros ->.
  apply (Hne f); [now left|reflexivity].
Qed.

(** The last file with a given key decides the value of that key. *)
Lemma merged_last_wins (pre post : list (string * json)) (f : string) (j : json)
    (d : PyDict.dict json) :
  (forall g, In g (map fst post) -> city_name_of g <> city_name_of f) ->
  PyDict.get (city_name_of f) (merged (pre ++ (f, j) :: post) d) = Some j.
Proof.
  intros Hne. unfold merged. rewrite fold_left_app. simpl.
  fold (merged pre d).
  fold (merged post (PyDict.set (city_name_of f) j (merged pre d))).
  rewrite merged_get_untouched by exact Hne.
  apply PyDictFacts.get_set_same.
Qed.

Lemma merged_length (contents : list (string * json)) (d : PyDict.dict json) :
  NoDup (map city_name_of (map fst contents)) ->
  (forall f, In f (map fst contents) -> ~ In (city_name_of f) (PyDict.keys d)) ->
  List.length (merged contents d) = (List.length d + List.length contents)%nat.
Proof.
  unfold merged. revert d.
  induction contents as [|[f j] contents IH]; intros d Hnd Hfresh; simpl.
  - lia.
  - inversion Hnd as [|? ? Hnotin Hnd']; subst.
    rewrite IH; auto.
    + rewrite PyDictFacts.length_set_fresh; [lia|].
      apply Hfresh. now left.
    + intros g Hg Hin. apply PyDictFacts.keys_set in Hin as [Heq|Hin].
      * apply Hnotin. simpl. rewrite <- Heq. now apply in_map.
      * apply (Hfresh g); [now right|exact Hin].
Qed.

End AggregationFacts.

(** ** The aggregation stage *)

(** C5: each file is keyed by the part of its base name before the first
    underscore.  When all the files decode and the output is written, the
    written mapping has as keys exactly the derived keys; with pairwise
    distinct derived keys it has one key per file, each mapped to that
    file's content; and for every key the content of the last file
    processed with that key is the one in the mapping. *)
Theorem aggregate_keys_by_city_name
    (self : Aggregation.DataAggregationTask) (E : env) (st : state)
    (contents : list (string * json)) :
  glob_glob E (Aggregation.input_folder self ++ "/*_analysis.json") = map fst contents ->
  (forall f j, In (f, j) contents -> json_load E f = inr j) ->
  (forall data, json_dump E (Aggregation.output_file self) data = None) ->
  (exists d : PyDict.dict json,
      Aggregation.aggregate self E st =
      (inr tt,
       {| log := log st
                 ++ [ {| level := INFO; message := "Starting data aggregation" |};
                      {| level := INFO;
                         message := "Data successfully aggregated and saved in "
                                    ++ Aggregation.output_file self |} ];
          written := written st ++ [(Aggregation.output_file self, JDict d)] |})
      /\ (forall k, In k (PyDict.keys d) <->
                    exists f, In f (map fst contents)
                              /\ PyPath.split_head "_" (PyPath.basename f) = k)
      /\ (NoDup (map Aggregation.city_name_of (map fst contents)) ->
          List.length d = List.length contents
          /\ forall f j, In (f, j) contents ->
                         PyDict.get (Aggregation.city_name_of f) d = Some j)
      /\ (forall pre f j post,
             contents = pre ++ (f, j) :: post ->
             (forall g, In g (map fst post) ->
                        Aggregation.city_name_of g <> Aggregation.city_name_of f) ->
             PyDict.get (Aggregation.city_name_of f) d = Some j))
  /\ (forall dir key rest : string,
         PyPath.has_char "/" key = false ->
         PyPath.has_char "_" key = false ->
         PyPath.has_char "/" rest = false ->
         Aggregation.city_name_of (dir ++ "/" ++ key ++ "_" ++ rest) = key).
Proof.
  intros Hglob Hload Hdump. split; [|apply AggregationFacts.city_name_of_path].
  exists (Aggregation.merged contents []). split; [|split; [|split]].
  - unfold Aggregation.aggregate, Stage.try_except, Stage.bind.
    unfold Stage.logging_info at 1. unfold Stage.emit.
    rewrite Hglob, AggregationFacts.merge_files_loaded by exact Hload.
    unfold Stage.dump. rewrite Hdump.
    unfold Stage.logging_info, Stage.emit. simpl.
    rewrite <- app_assoc. reflexivity.
  - intros k. rewrite AggregationFacts.merged_keys. simpl.
    unfold Aggregation.city_name_of. intuition.
  - intros Hnd. split.
    + now rewrite AggregationFacts.merged_length.
    + intros f j Hin. destruct (in_split _ _ Hin) as (pre & post & ->).
      apply AggregationFacts.merged_last_wins.
      intros g Hg Heq. rewrite !map_app in Hnd. simpl in Hnd.
      apply NoDup_remove_2 in Hnd. apply Hnd.
      apply in_or_app. right. rewrite <- Heq. now apply in_map.
  - intros pre f j post -> Hne. now apply AggregationFacts.merged_last_wins.
Qed.

Lemma aggregate_keys_by_city_name_witness :
  glob_glob StageExamples.env_AB "./results/*_analysis.json" =
    ["./results/A_analysis.json"; "./results/B_analysis.json"]
  /\ exists d : PyDict.dict json,
       Aggregation.output_of "./aggregated_data.json"
         (snd (Aggregation.aggregate StageExamples.aggregation_task
                 StageExamples.env_AB StageExamples.st0)) = Some (JDict d)
       /\ PyDict.get "A" d = Some StageExamples.content_A
       /\ PyDict.get "B" d = Some StageExamples.content_B.
Proof.
  split; [reflexivity|].
  destruct (aggregate_keys_by_city_name
              StageExamples.aggregation_task StageExamples.env_AB StageExamples.st0
              [ ("./results/A_analysis.json", StageExamples.content_A);
                ("./results/B_analysis.json", StageExamples.content_B) ])
    as [(d & Hrun & _ & _ & Hlast) _].
  - reflexivity.
  - intros f j [H|[H|[]]]; inversion H; reflexivity.
  - reflexivity.
  - exists d. rewrite Hrun. split; [reflexivity|]. split.
    + apply (Hlast [] "./results/A_analysis.json" StageExamples.content_A
               [("./results/B_analysis.json", StageExamples.content_B)] eq_refl).
      intros g [<-|[]]. vm_compute. discriminate.
    + apply (Hlast [("./results/A_analysis.json", StageExamples.content_A)]
               "./results/B_analysis.json" StageExamples.content_B [] eq_refl).
      intros g [].
Defined.

(** C6, as stated, fails: with a first file that decodes and a second
    one that does not, the stage logs the error and raises nothing, but
    writes no output; the mapping built from the first file is lost. *)
Lemma aggregate_failure_discards_partial_mapping :
  let run := Aggregation.aggregate StageExamples.aggregation_task
               StageExamples.env_A_broken_B StageExamples.st0 in
  run =
    (inr tt,
     {| log := [ {| level := INFO; message := "Starting data aggregation" |};
                 {| level := ERROR;
                    message := "JSON decoding error during aggregation: Expecting value: line 1 column 1 (char 0)" |} ];
        written := [] |})
  /\ Aggregation.output_of "./aggregated_data.json" (snd run) = None
  /\ Aggregation.output_of "./aggregated_data.json" (snd run)
     <> Some (JDict [("A", StageExamples.content_A)]).
Proof.
  split; [reflexivity|]. split; [reflexivity|]. discriminate.
Qed.

(** C6, amended: when reading or decoding one input file fails, the whole
    aggregation stops; the error is caught and logged, no exception
    leaves the stage, and the stage writes nothing: the mapping built
    from the files processed before the failure is dropped.  No run of
    the stage lets an exception out. *)
Theorem aggregate_failure_writes_nothing
    (self : Aggregation.DataAggregationTask) (E : env) (st : state)
    (contents : list (string * json)) (f : string) (post : list string) (e : exn) :
  glob_glob E (Aggregation.input_folder self ++ "/*_analysis.json") =
    map fst contents ++ f :: post ->
  (forall g j, In (g, j) contents -> json_load E g = inr j) ->
  json_load E f = inl e ->
  Aggregation.aggregate self E st =
    (inr tt,
     {| log := log st
               ++ [ {| level := INFO; message := "Starting data aggregation" |};
                    {| level := ERROR;
                       message :=
                         match exn_type e with
                         | OSError => "Filesystem error during aggregation: "
                         | JSONDecodeError => "JSON decoding error during aggregation: "
                         | _ => "Unexpected error during data aggregation: "
                         end ++ exn_str e |} ];
        written := written st |})
  /\ (forall (E' : env) (st' : state),
         fst (Aggregation.aggregate self E' st') = inr tt).
Proof.
  intros Hglob Hload Hf. split.
  - unfold Aggregation.aggregate, Stage.try_except, Stage.bind.
    unfold Stage.logging_info at 1. unfold Stage.emit.
    rewrite Hglob, (AggregationFacts.merge_files_fails E contents f post e) by assumption.
    unfold Stage.logging_error, Stage.emit.
    destruct e as [[] msg]; simpl; rewrite <- app_assoc; reflexivity.
  - intros E' st'.
    unfold Aggregation.aggregate, Stage.try_except, Stage.bind.
    unfold Stage.logging_info at 1. unfold Stage.emit.
    destruct (Aggregation.merge_files E' _ _ _) as [[e'|d] st1].
    + destruct e' as [[] msg]; reflexivity.
    + unfold Stage.dump.
      destruct (json_dump E' (Aggregation.output_file self) (JDict d)) as [e'|].
      * destruct e' as [[] msg]; reflexivity.
      * reflexivity.
Qed.

Lemma aggregate_failure_writes_nothing_witness :
  json_load StageExamples.env_A_broken_B "./results/B_analysis.json" =
    inl {| exn_type := JSONDecodeError;
           exn_str := "Expecting value: line 1 column 1 (char 0)" |}
  /\ written (snd (Aggregation.aggregate StageExamples.aggregation_task
                     StageExamples.env_A_broken_B StageExamples.st0)) = [].
Proof.
  split; [reflexivity|].
  assert (Hload : forall g j,
             In (g, j) [("./results/A_analysis.json", StageExamples.content_A)] ->
             json_load StageExamples.env_A_broken_B g = inr j).
  { intros g j [H|[]]. inversion H. reflexivity. }
  rewrite (proj1 (aggregate_failure_writes_nothing
                    StageExamples.aggregation_task StageExamples.env_A_broken_B
                    StageExamples.st0
                    [("./results/A_analysis.json", StageExamples.content_A)]
                    "./results/B_analysis.json" []
                    {| exn_type := JSONDecodeError;
                       exn_str := "Expecting value: line 1 column 1 (char 0)" |}
                    eq_refl Hload eq_refl)).
  reflexivity.
Defined.

(** ** The order of floats *)

Module PyFloatOrder.

Ltac cmp_cases :=
  repeat match goal with
         | |- context [Z.compare ?a ?b] => destruct (Z.compare_spec a b); subst
         | H : context [Z.compare ?a ?b] |- _ => destruct (Z.compare_spec a b); subst
         | |- context [Pos.compare_cont Eq ?a ?b] =>
             change (Pos.compare_cont Eq a b) with (Pos.compare a b);
             destruct (Pos.compare_spec a b); subst
         | H : context [Pos.compare_cont Eq ?a ?b] |- _ =>
             change (Pos.compare_cont Eq a b) with (Pos.compare a b) in H;
             destruct (Pos.compare_spec a b); subst
         end;
  simpl in *; try discriminate; try reflexivity; try lia.

Lemma gtb_irrefl (x : float) : PyFloat.gtb x x = false.
Proof.
  unfold PyFloat.gtb, SFltb.
  destruct x as [[]|[]| |[] m e]; simpl; try reflexivity; cmp_cases.
Qed.

Lemma ltb_trans (x y z : float) :
  SFltb x y = true -> SFltb y z = true -> SFltb x z = true.
Proof.
  unfold SFltb.
  destruct x as [[]|[]| |[] mx ex], y as [[]|[]| |[] my ey], z as [[]|[]| |[] mz ez];
    simpl; try discriminate; try reflexivity; intros Hxy Hyz; cmp_cases.
Qed.

Lemma gtb_trans (x y z : float) :
  PyFloat.gtb x y = true -> PyFloat.gtb y z = true -> PyFloat.gtb x z = true.
Proof. unfold PyFloat.gtb. intros Hxy Hyz. now apply (ltb_trans z y x). Qed.

(** Equal floats compare alike with any third one. *)
Lemma eqb_gtb_l (a b m : float) :
  PyFloat.eqb a b = true -> PyFloat.gtb a m = PyFloat.gtb b m.
Proof.
  intros H. destruct (PyFloatFacts.eqb_cases _ _ H) as [(s & s' & -> & ->)|[-> _]];
    [|reflexivity].
  unfold PyFloat.gtb, SFltb. destruct m as [[]|[]| |[] mm em]; reflexivity.
Qed.

Lemma eqb_gtb_r (a b m : float) :
  PyFloat.eqb a b = true -> PyFloat.gtb m a = PyFloat.gtb m b.
Proof.
  intros H. destruct (PyFloatFacts.eqb_cases _ _ H) as [(s & s' & -> & ->)|[-> _]];
    [|reflexivity].
  unfold PyFloat.gtb, SFltb. destruct m as [[]|[]| |[] mm em]; reflexivity.
Qed.

Lemma eqb_sym (a b : float) : PyFloat.eqb a b = true -> PyFloat.eqb b a = true.
Proof.
  intros H. destruct (PyFloatFacts.eqb_cases _ _ H) as [(s & s' & -> & ->)|[-> Hn]].
  - reflexivity.
  - now apply PyFloatFacts.eqb_refl.
Qed.

Lemma eqb_trans (a b c : float) :
  PyFloat.eqb a b = true -> PyFloat.eqb b c = true -> PyFloat.eqb a c = true.
Proof.
  intros Hab Hbc. apply (PyFloatFacts.eqb_common a c b); [exact Hab|].
  now apply eqb_sym.
Qed.

Lemma eqb_not_gtb (a b : float) : PyFloat.eqb a b = true -> PyFloat.gtb a b = false.
Proof. intros H. rewrite (eqb_gtb_l a b b H). apply gtb_irrefl. Qed.

End PyFloatOrder.

(** ** The pass computes a maximum *)

Module SelectionOrderFacts.
Import Selection SelectionOrder.

(** The body of the outer loop, branch by branch. *)
Lemma city_step_branches (s : selection) (city : string) (cd : CityData) :
  city_step s (city, cd) =
  if beats s cd then
    {| best_cities := [city];
       max_avg_temp := avg_temp_value (city_totals cd);
       max_clear_hours := total_clear_hours (city_totals cd) |}
  else if ties s cd then
    {| best_cities := best_cities s ++ [city];
       max_avg_temp := max_avg_temp s;
       max_clear_hours := max_clear_hours s |}
  else s.
Proof.
  unfold city_step, beats, ties.
  destruct (0 <? days_count (city_totals cd)); reflexivity.
Qed.

(** A candidate that did not beat the old best neither beats nor ties
    with the candidate that replaced it. *)
Lemma replaced_best_dominates (m a a' : float) (mh h h' : Z) :
  PyFloat.gtb a m || (PyFloat.eqb a m && (mh <? h)) = false ->
  PyFloat.gtb a' m || (PyFloat.eqb a' m && (mh <? h')) = true ->
  PyFloat.gtb a a' || (PyFloat.eqb a a' && (h' <? h)) = false
  /\ PyFloat.eqb a a' && (h =? h') = false.
Proof.
  intros Hold Hnew.
  apply orb_false_iff in Hold as [Hgt Heq].
  apply orb_true_iff in Hnew as [Hnew|Hnew].
  - assert (Hg : PyFloat.gtb a a' = false).
    { destruct (PyFloat.gtb a a') eqn:Hg; [|reflexivity].
      rewrite (PyFloatOrder.gtb_trans a a' m Hg Hnew) in Hgt. discriminate. }
    assert (He : PyFloat.eqb a a' = false).
    { destruct (PyFloat.eqb a a') eqn:He; [|reflexivity].
      rewrite (PyFloatOrder.eqb_gtb_l a a' m He), Hnew in Hgt. discriminate. }
    rewrite Hg, He. split; reflexivity.
  - apply andb_true_iff in Hnew as [Hnew Hh']. apply Z.ltb_lt in Hh'.
    rewrite (PyFloatOrder.eqb_gtb_r a' m a Hnew), Hgt.
    destruct (PyFloat.eqb a a') eqn:He; [|split; reflexivity].
    rewrite (PyFloatOrder.eqb_trans a a' m He Hnew) in Heq. simpl in Heq.
    apply Z.ltb_ge in Heq. simpl. split.
    + apply Z.ltb_ge. lia.
    + apply Z.eqb_neq. lia.
Qed.

Lemma filter_none {A} (f : A -> bool) (l : list A) :
  (forall x, In x l -> f x = false) -> filter f l = [].
Proof.
  induction l as [|x l IH]; simpl; intros H; [reflexivity|].
  rewrite (H x (or_introl eq_refl)). apply IH. intros y Hy. apply H. now right.
Qed.

Lemma pass_inv_init : pass_inv [] selection0.
Proof. repeat split; auto. intros item []. Qed.

Lemma pass_inv_step (items : list (string * CityData)) (s : selection)
    (item : string * CityData) :
  pass_inv items s -> pass_inv (items ++ [item]) (city_step s item).
Proof.
  intros (Hnan & Hbeat & Hbest & Hempty). destruct item as [city cd].
  rewrite city_step_branches.
  destruct (beats s cd) eqn:Hb; [|destruct (ties s cd) eqn:Ht].
  - (* the city replaces the best set *)
    assert (Hdom : forall it, In it items ->
               beats {| best_cities := [city];
                        max_avg_temp := avg_temp_value (city_totals cd);
                        max_clear_hours := total_clear_hours (city_totals cd) |}
                     (snd it) = false
               /\ ties {| best_cities := [city];
                          max_avg_temp := avg_temp_value (city_totals cd);
                          max_clear_hours := total_clear_hours (city_totals cd) |}
                       (snd it) = false).
    { intros it Hit. specialize (Hbeat it Hit). unfold beats, ties in *. simpl.
      destruct (0 <? days_count (city_totals (snd it))); [|split; reflexivity].
      destruct (0 <? days_count (city_totals cd)); [|discriminate].
      simpl in *. now apply (replaced_best_dominates (max_avg_temp s) _ _ (max_clear_hours s)). }
    assert (Hself : PyFloat.is_nan (avg_temp_value (city_totals cd)) = false).
    { unfold beats in Hb. apply andb_true_iff in Hb as [_ Hb].
      apply orb_true_iff in Hb as [Hb|Hb].
      - eapply PyFloatFacts.gtb_not_nan_l; eauto.
      - apply andb_true_iff in Hb as [Hb _]. eapply PyFloatFacts.eqb_not_nan_l; eauto. }
    assert (Hdc : (0 <? days_count (city_totals cd)) = true).
    { unfold beats in Hb. now apply andb_true_iff in Hb as [Hb _]. }
    repeat split.
    + exact Hself.
    + intros it Hit. apply in_app_or in Hit as [Hit|[<-|[]]].
      * apply (Hdom it Hit).
      * unfold beats. simpl. rewrite PyFloatOrder.gtb_irrefl, Z.ltb_irrefl.
        now rewrite andb_false_r, andb_false_r.
    + simpl. rewrite filter_app, (filter_none _ items) by (intros it Hit; apply (Hdom it Hit)).
      simpl. unfold ties at 1. simpl.
      now rewrite Hdc, PyFloatFacts.eqb_refl, Z.eqb_refl by exact Hself.
    + discriminate.
  - (* the city joins the best set *)
    assert (Hsame : forall c, ties {| best_cities := best_cities s ++ [city];
                                      max_avg_temp := max_avg_temp s;
                                      max_clear_hours := max_clear_hours s |} c
                              = ties s c) by reflexivity.
    repeat split.
    + exact Hnan.
    + intros it Hit. apply in_app_or in Hit as [Hit|[<-|[]]].
      * apply (Hbeat it Hit).
      * exact Hb.
    + simpl. rewrite filter_app, map_app. simpl. rewrite Hsame, Ht. simpl.
      now rewrite Hbest.
    + simpl. intros H. now destruct (best_cities s).
  - (* the city is dropped *)
    repeat split.
    + exact Hnan.
    + intros it Hit. apply in_app_or in Hit as [Hit|[<-|[]]]; auto.
    + rewrite filter_app, map_app. simpl. rewrite Ht. simpl.
      now rewrite app_nil_r.
    + exact Hempty.
Qed.

Lemma pass_inv_select (items : list (string * CityData)) :
  pass_inv items (select_from selection0 items).
Proof.
  induction items as [|item items IH] using rev_ind.
  - apply pass_inv_init.
  - rewrite SelectionFacts.select_from_snoc. now apply pass_inv_step.
Qed.

End SelectionOrderFacts.

(** X1: the final best set is, in the order of the dataset, the list of
    the cities that have a defined average equal to the final best
    average and as many favourable hours as the final best hours. *)
Theorem best_set_is_filter_of_ties (wd : WeatherData) :
  Selection.best_cities (Selection.select wd) =
  map fst (filter (fun item => SelectionOrder.ties (Selection.select wd) (snd item))
             (cities wd)).
Proof. apply SelectionOrderFacts.pass_inv_select. Qed.

(** X2: no city of the dataset would replace the final best: a city with
    a defined average has an average not greater than the final best
    average, and when it is equal, not more favourable hours than the
    final best hours. *)
Theorem final_best_is_unbeaten (wd : WeatherData) (city : string) (cd : CityData) :
  In (city, cd) (cities wd) ->
  (0 <? Selection.days_count (Selection.city_totals cd)) = true ->
  let s := Selection.select wd in
  let a := Selection.city_totals cd in
  PyFloat.gtb (Selection.avg_temp_value a) (Selection.max_avg_temp s) = false
  /\ (PyFloat.eqb (Selection.avg_temp_value a) (Selection.max_avg_temp s) = true ->
      Selection.total_clear_hours a <= Selection.max_clear_hours s).
Proof.
  intros Hin Hdc s a. subst s a. unfold Selection.select.
  destruct (SelectionOrderFacts.pass_inv_select (cities wd)) as (_ & Hbeat & _).
  specialize (Hbeat (city, cd) Hin). unfold SelectionOrder.beats in Hbeat.
  cbn [snd] in Hbeat. rewrite Hdc, andb_true_l in Hbeat.
  apply orb_false_iff in Hbeat as [Hgt Heq]. split; [exact Hgt|].
  intros He. rewrite He, andb_true_l in Heq.
  now apply Z.ltb_ge in Heq.
Qed.

Lemma final_best_is_unbeaten_witness :
  In ("A", Examples.city_A) (cities Examples.dataset_ABC)
  /\ Selection.total_clear_hours (Selection.city_totals Examples.city_A)
     <= Selection.max_clear_hours (Selection.select Examples.dataset_ABC).
Proof.
  split; [now left|].
  exact (proj2 (final_best_is_unbeaten Examples.dataset_ABC "A" Examples.city_A
                  (or_introl eq_refl) eq_refl) eq_refl).
Defined.

(** X3: as soon as one city has a defined average greater than minus
    infinity, the final best set is not empty. *)
Theorem best_set_nonempty (wd : WeatherData) (city : string) (cd : CityData) :
  In (city, cd) (cities wd) ->
  (0 <? Selection.days_count (Selection.city_totals cd)) = true ->
  PyFloat.gtb (Selection.avg_temp_value (Selection.city_totals cd)) PyFloat.neg_inf = true ->
  Selection.best_cities (Selection.select wd) <> [].
Proof.
  intros Hin Hdc Hgt Hnil. unfold Selection.select in Hnil.
  destruct (SelectionOrderFacts.pass_inv_select (cities wd)) as (_ & Hbeat & _ & Hempty).
  specialize (Hbeat (city, cd) Hin). unfold SelectionOrder.beats in Hbeat.
  cbn [snd] in Hbeat. rewrite Hdc, andb_true_l, (Hempty Hnil) in Hbeat.
  change (Selection.max_avg_temp Selection.selection0) with PyFloat.neg_inf in Hbeat.
  rewrite Hgt in Hbeat. discriminate.
Qed.

Lemma best_set_nonempty_witness :
  In ("A", Examples.city_A) (cities Examples.dataset_ABC)
  /\ Selection.best_cities (Selection.select Examples.dataset_ABC) <> [].
Proof.
  split; [now left|].
  exact (best_set_nonempty Examples.dataset_ABC "A" Examples.city_A
           (or_introl eq_refl) eq_refl eq_refl).
Defined.

(** ** The order of the dataset *)

Module SelectionPermFacts.
Import Selection SelectionOrder.

Lemma eqb_compat_r (a m m' : float) :
  PyFloat.eqb m m' = true -> PyFloat.eqb a m = PyFloat.eqb a m'.
Proof.
  intros H. destruct (PyFloatFacts.eqb_cases _ _ H) as [(s & s' & -> & ->)|[-> _]];
    [|reflexivity].
  unfold PyFloat.eqb, SFeqb. destruct a as [[]|[]| |[] ma ea]; reflexivity.
Qed.

(** Two numbers neither of which is greater than the other are equal. *)
Lemma gtb_total (a b : float) :
  PyFloat.is_nan a = false -> PyFloat.is_nan b = false ->
  PyFloat.gtb a b = false -> PyFloat.gtb b a = false -> PyFloat.eqb a b = true.
Proof.
  unfold PyFloat.gtb, PyFloat.eqb, SFltb, SFeqb.
  destruct a as [[]|[]| |[] ma ea], b as [[]|[]| |[] mb eb];
    simpl; try discriminate; try reflexivity; intros _ _ H1 H2;
    PyFloatOrder.cmp_cases.
Qed.

Lemma gtb_neg_inf (m : float) : PyFloat.gtb PyFloat.neg_inf m = false.
Proof. unfold PyFloat.gtb, SFltb. destruct m as [[]|[]| |[] mm em]; reflexivity. Qed.

Lemma pass_reach_init : pass_reach [] selection0.
Proof. split; [left; split; reflexivity|reflexivity]. Qed.

Lemma pass_reach_step (items : list (string * CityData)) (s : selection)
    (item : string * CityData) :
  pass_reach items s -> pass_reach (items ++ [item]) (city_step s item).
Proof.
  intros (Hreach & Hinit). destruct item as [city cd].
  assert (Hkeep : pass_reach (items ++ [(city, cd)]) s).
  { split; [|exact Hinit]. destruct Hreach as [H|(it & Hit & H)]; [now left|right].
    exists it. split; [apply in_or_app; now left|exact H]. }
  rewrite SelectionOrderFacts.city_step_branches.
  destruct (beats s cd) eqn:Hb; [|destruct (ties s cd) eqn:Ht].
  - split.
    + right. exists (city, cd). simpl. repeat split.
      * apply in_or_app. right. now left.
      * unfold beats in Hb. now apply andb_true_iff in Hb as [Hb _].
    + simpl. unfold beats in Hb. apply andb_true_iff in Hb as [_ Hb].
      apply (SelectionOrderFacts.replaced_best_dominates
               (max_avg_temp s) _ _ (max_clear_hours s) _ _ Hinit Hb).
  - destruct Hkeep as (Hr & Hi). split; [exact Hr|exact Hi].
  - exact Hkeep.
Qed.

Lemma pass_reach_select (items : list (string * CityData)) :
  pass_reach items (select_from selection0 items).
Proof.
  induction items as [|item items IH] using rev_ind.
  - apply pass_reach_init.
  - rewrite SelectionFacts.select_from_snoc. now apply pass_reach_step.
Qed.

(** The final best of one order is not beaten by the final best of
    another order of the same items. *)
Lemma final_not_beaten_across (items items' : list (string * CityData)) :
  Permutation items items' ->
  let s := select_from selection0 items in
  let s' := select_from selection0 items' in
  PyFloat.gtb (max_avg_temp s) (max_avg_temp s')
  || (PyFloat.eqb (max_avg_temp s) (max_avg_temp s')
      && (max_clear_hours s' <? max_clear_hours s)) = false.
Proof.
  intros Hperm s s'.
  destruct (pass_reach_select items) as (Hreach & _).
  destruct (pass_reach_select items') as (_ & Hinit').
  destruct (SelectionOrderFacts.pass_inv_select items') as (_ & Hbeat' & _).
  fold s in Hreach. fold s' in Hinit', Hbeat'.
  destruct Hreach as [[-> ->]|(it & Hit & Hdc & <- & <-)].
  - exact Hinit'.
  - specialize (Hbeat' it (Permutation_in _ Hperm Hit)).
    unfold beats in Hbeat'. now rewrite Hdc in Hbeat'.
Qed.

Lemma Permutation_filter {A} (f : A -> bool) (l l' : list A) :
  Permutation l l' -> Permutation (filter f l) (filter f l').
Proof.
  induction 1 as [|x l l' _ IH|x y l|l l' l'' _ IH1 _ IH2]; simpl.
  - constructor.
  - destruct (f x); [now constructor|exact IH].
  - destruct (f x), (f y); try apply Permutation_refl. apply perm_swap.
  - now apply (Permutation_trans IH1).
Qed.

End SelectionPermFacts.

(** X4: the order of the cities in the dataset changes the result only
    in the order of the names: on two orders of the same items the final
    best averages are equal, the final best hours are equal, and the best
    sets hold the same cities. *)
Theorem select_order_independent (wd wd' : WeatherData) :
  Permutation (cities wd) (cities wd') ->
  PyFloat.eqb (Selection.max_avg_temp (Selection.select wd))
    (Selection.max_avg_temp (Selection.select wd')) = true
  /\ Selection.max_clear_hours (Selection.select wd) =
     Selection.max_clear_hours (Selection.select wd')
  /\ Permutation (Selection.best_cities (Selection.select wd))
       (Selection.best_cities (Selection.select wd')).
Proof.
  intros Hperm. unfold Selection.select.
  pose proof (SelectionPermFacts.final_not_beaten_across _ _ Hperm) as H1.
  pose proof (SelectionPermFacts.final_not_beaten_across _ _ (Permutation_sym Hperm)) as H2.
  cbv zeta in H1, H2.
  destruct (SelectionOrderFacts.pass_inv_select (cities wd)) as (Hnan & _ & Hbest & _).
  destruct (SelectionOrderFacts.pass_inv_select (cities wd')) as (Hnan' & _ & Hbest' & _).
  set (s := Selection.select_from Selection.selection0 (cities wd)) in *.
  set (s' := Selection.select_from Selection.selection0 (cities wd')) in *.
  apply orb_false_iff in H1 as [Hg1 He1]. apply orb_false_iff in H2 as [Hg2 He2].
  assert (Heq : PyFloat.eqb (Selection.max_avg_temp s) (Selection.max_avg_temp s') = true)
    by now apply SelectionPermFacts.gtb_total.
  rewrite Heq in He1. rewrite (PyFloatOrder.eqb_sym _ _ Heq) in He2. simpl in He1, He2.
  apply Z.ltb_ge in He1, He2.
  assert (Hh : Selection.max_clear_hours s = Selection.max_clear_hours s') by lia.
  split; [exact Heq|]. split; [exact Hh|].
  rewrite Hbest, Hbest'. apply Permutation_map.
  rewrite (filter_ext (fun item => SelectionOrder.ties s' (snd item))
             (fun item => SelectionOrder.ties s (snd item))).
  - now apply SelectionPermFacts.Permutation_filter.
  - intros [c cd]. unfold SelectionOrder.ties. simpl.
    now rewrite Hh, (SelectionPermFacts.eqb_compat_r _ _ _ Heq).
Qed.

Lemma select_order_independent_witness :
  Permutation (cities Examples.dataset_ABC)
    (cities {| cities := [("B", Examples.city_B); ("A", Examples.city_A);
                          ("C", Examples.city_C)] |})
  /\ Selection.max_clear_hours (Selection.select Examples.dataset_ABC) =
     Selection.max_clear_hours
       (Selection.select {| cities := [("B", Examples.city_B); ("A", Examples.city_A);
                                       ("C", Examples.city_C)] |}).
Proof.
  assert (H : Permutation (cities Examples.dataset_ABC)
                (cities {| cities := [("B", Examples.city_B); ("A", Examples.city_A);
                                      ("C", Examples.city_C)] |})).
  { simpl. apply perm_swap. }
  split; [exact H|].
  exact (proj1 (proj2 (select_order_independent _ _ H))).
Defined.

(** ** The selection stage as a whole *)

(** X5: when the aggregated file decodes and validates, the stage logs
    its start line and then, joined by a comma and a space and in the
    order of the dataset, the names of the cities whose average and hours
    equal the best average and hours of the dataset; it writes nothing
    and raises nothing. *)
Theorem analyze_logs_best_cities
    (validate : json -> exn + WeatherData) (self : Analyzing.DataAnalyzingTask)
    (E : env) (st : state) (data : json) (wd : WeatherData) :
  json_load E (Analyzing.input_file self) = inr data ->
  validate data = inr wd ->
  Analyzing.analyze validate self E st =
  (inr tt,
   {| log := log st
             ++ [ {| level := INFO; message := "Starting final data analysis" |};
                  {| level := INFO;
                     message :=
                       "Most favorable cities for travel: "
                       ++ String.concat ", "
                            (map fst
                               (filter (fun item =>
                                          SelectionOrder.ties (Selection.select wd) (snd item))
                                  (cities wd))) |} ];
      written := written st |}).
Proof.
  intros Hload Hval.
  destruct (SelectionOrderFacts.pass_inv_select (cities wd)) as (_ & _ & Hbest & _).
  fold (Selection.select wd) in Hbest. rewrite <- Hbest.
  unfold Analyzing.analyze, Stage.try_except, Stage.bind, Stage.load,
    Stage.logging_info, Stage.emit, Stage.ret.
  rewrite Hload, Hval. simpl. rewrite <- app_assoc. reflexivity.
Qed.

Lemma analyze_logs_best_cities_witness :
  json_load (StageExamples.env_with StageExamples.data_N) "./aggregated_data.json" =
    inr StageExamples.data_N
  /\ log (snd (Analyzing.analyze Schema.validate_WeatherData StageExamples.analyzing_task
                 (StageExamples.env_with StageExamples.data_N) StageExamples.st0)) =
     [ {| level := INFO; message := "Starting final data analysis" |};
       {| level := INFO; message := "Most favorable cities for travel: " |} ].
Proof.
  split; [reflexivity|].
  rewrite (analyze_logs_best_cities Schema.validate_WeatherData
             StageExamples.analyzing_task
             (StageExamples.env_with StageExamples.data_N) StageExamples.st0
             StageExamples.data_N {| cities := [("N", Examples.city_N)] |}
             eq_refl eq_refl).
  reflexivity.
Defined.

(** X6: whatever the file system and the validator do, the selection
    stage lets no exception out, writes no file, and adds exactly two
    lines to the log, the first being its start line. *)
Theorem analyze_never_raises_nor_writes
    (validate : json -> exn + WeatherData) (self : Analyzing.DataAnalyzingTask)
    (E : env) (st : state) :
  exists r : log_record,
    Analyzing.analyze validate self E st =
    (inr tt,
     {| log := log st
               ++ [ {| level := INFO; message := "Starting final data analysis" |}; r ];
        written := written st |}).
Proof.
  unfold Analyzing.analyze, Stage.try_except, Stage.bind, Stage.load,
    Stage.logging_info, Stage.logging_error, Stage.emit, Stage.ret, Stage.raise.
  destruct (json_load E (Analyzing.input_file self)) as [[[] msg]|data]; simpl;
    try (eexists; rewrite <- app_assoc; reflexivity).
  destruct (validate data) as [[[] msg]|wd]; simpl;
    eexists; rewrite <- app_assoc; reflexivity.
Qed.

(** X7: when the aggregated file cannot be read or decoded, the stage
    logs the error under the heading of its class (file system, JSON
    decoding, or unexpected) and ends; the validator is not consulted. *)
Theorem analyze_load_failure
    (validate validate' : json -> exn + WeatherData)
    (self : Analyzing.DataAnalyzingTask) (E : env) (st : state) (e : exn) :
  json_load E (Analyzing.input_file self) = inl e ->
  Analyzing.analyze validate self E st =
  (inr tt,
   {| log := log st
             ++ [ {| level := INFO; message := "Starting final data analysis" |};
                  {| level := ERROR;
                     message :=
                       match exn_type e with
                       | OSError => "Filesystem error during analysis: "
                       | JSONDecodeError => "JSON decoding error during analysis: "
                       | _ => "Unexpected error during data analysis: "
                       end ++ exn_str e |} ];
      written := written st |})
  /\ Analyzing.analyze validate' self E st = Analyzing.analyze validate self E st.
Proof.
  intros Hload.
  unfold Analyzing.analyze, Stage.try_except, Stage.bind, Stage.load,
    Stage.logging_info, Stage.logging_error, Stage.emit, Stage.ret, Stage.raise.
  rewrite Hload. destruct e as [[] msg]; simpl; rewrite <- app_assoc; split; reflexivity.
Qed.

Lemma analyze_load_failure_witness :
  json_load (StageExamples.env_with StageExamples.data_N) "./missing.json" =
    inl {| exn_type := OSError; exn_str := "No such file or directory" |}
  /\ log (snd (Analyzing.analyze Schema.validate_WeatherData
                 {| Analyzing.input_file := "./missing.json" |}
                 (StageExamples.env_with StageExamples.data_N) StageExamples.st0)) =
     [ {| level := INFO; message := "Starting final data analysis" |};
       {| level := ERROR;
          message := "Filesystem error during analysis: No such file or directory" |} ].
Proof.
  split; [reflexivity|].
  rewrite (proj1 (analyze_load_failure Schema.validate_WeatherData
                    Schema.validate_WeatherData
                    {| Analyzing.input_file := "./missing.json" |}
                    (StageExamples.env_with StageExamples.data_N) StageExamples.st0
                    {| exn_type := OSError; exn_str := "No such file or directory" |}
                    eq_refl)).
  reflexivity.
Defined.

(** ** More on the aggregation stage *)

Module AggregationRuns.
Import Aggregation.

Lemma set_keys_nodup {V} (k : string) (v : V) (d : PyDict.dict V) :
  NoDup (PyDict.keys d) -> NoDup (PyDict.keys (PyDict.set k v d)).
Proof.
  unfold PyDict.keys. induction d as [|[k0 v0] d IH]; simpl; intros Hnd.
  - repeat constructor. intros [].
  - inversion Hnd as [|? ? Hnotin Hnd']; subst.
    destruct (String.eqb_spec k0 k); simpl.
    + subst. now constructor.
    + constructor; [|now apply IH].
      intros Hin. apply (PyDictFacts.keys_set k0 k v d) in Hin as [Heq|Hin]; auto.
  Qed.

(** The loop either raises, or returns a mapping with distinct keys; it
    leaves the state alone. *)
Lemma merge_files_outcome (E : env) (file_names : list string)
    (d : PyDict.dict json) (st : state) :
  NoDup (PyDict.keys d) ->
  (exists e, merge_files E file_names d st = (inl e, st))
  \/ (exists d', merge_files E file_names d st = (inr d', st)
                 /\ NoDup (PyDict.keys d')).
Proof.
  revert d. induction file_names as [|f rest IH]; intros d Hnd; simpl.
  - right. exists d. split; [reflexivity|exact Hnd].
  - unfold Stage.bind, Stage.load.
    destruct (json_load E f) as [e|data]; simpl.
    + left. now exists e.
    + apply IH. now apply set_keys_nodup.
Qed.

(** The run when every file decodes. *)
Lemma aggregate_loaded (self : DataAggregationTask) (E : env) (st : state)
    (contents : list (string * json)) :
  glob_glob E (input_folder self ++ "/*_analysis.json") = map fst contents ->
  (forall f j, In (f, j) contents -> json_load E f = inr j) ->
  aggregate self E st =
  Stage.try_except
    (Stage.dump E (output_file self) (JDict (merged contents [])) ;;;
     Stage.logging_info ("Data successfully aggregated and saved in " ++ output_file self))
    [ (Stage.is_OSError,
       fun e => Stage.logging_error ("Filesystem error during aggregation: " ++ exn_str e));
      (Stage.is_JSONDecodeError,
       fun e => Stage.logging_error ("JSON decoding error during aggregation: " ++ exn_str e));
      (Stage.is_Exception,
       fun e => Stage.logging_error ("Unexpected error during data aggregation: " ++ exn_str e)) ]
    {| log := log st ++ [ {| level := INFO; message := "Starting data aggregation" |} ];
       written := written st |}.
Proof.
  intros Hglob Hload.
  unfold aggregate, Stage.try_except, Stage.bind.
  unfold Stage.logging_info at 1. unfold Stage.emit.
  rewrite Hglob, AggregationFacts.merge_files_loaded by exact Hload.
  reflexivity.
Qed.

Lemma aggregate_success (self : DataAggregationTask) (E : env) (st : state)
    (contents : list (string * json)) :
  glob_glob E (input_folder self ++ "/*_analysis.json") = map fst contents ->
  (forall f j, In (f, j) contents -> json_load E f = inr j) ->
  json_dump E (output_file self) (JDict (merged contents [])) = None ->
  aggregate self E st =
  (inr tt,
   {| log := log st
             ++ [ {| level := INFO; message := "Starting data aggregation" |};
                  {| level := INFO;
                     message := "Data successfully aggregated and saved in "
                                ++ output_file self |} ];
      written := written st ++ [(output_file self, JDict (merged contents []))] |}).
Proof.
  intros Hglob Hload Hdump. rewrite (aggregate_loaded self E st contents Hglob Hload).
  unfold Stage.try_except, Stage.bind, Stage.dump. rewrite Hdump.
  unfold Stage.logging_info, Stage.emit. simpl. rewrite <- app_assoc. reflexivity.
Qed.

Lemma aggregate_input_failure (self : DataAggregationTask) (E : env) (st : state)
    (contents : list (string * json)) (f : string) (post : list string) (e : exn) :
  glob_glob E (input_folder self ++ "/*_analysis.json") = map fst contents ++ f :: post ->
  (forall g j, In (g, j) contents -> json_load E g = inr j) ->
  json_load E f = inl e ->
  exists r, aggregate self E st =
            (inr tt,
             {| log := log st
                       ++ [ {| level := INFO; message := "Starting data aggregation" |}; r ];
                written := written st |}).
Proof.
  intros Hglob Hload Hf.
  unfold aggregate, Stage.try_except, Stage.bind.
  unfold Stage.logging_info at 1. unfold Stage.emit.
  rewrite Hglob, (AggregationFacts.merge_files_fails E contents f post e) by assumption.
  unfold Stage.logging_error, Stage.emit.
  destruct e as [[] msg]; simpl; eexists; rewrite <- app_assoc; reflexivity.
Qed.

(** The two ways a run can end. *)
Lemma aggregate_outcomes (self : DataAggregationTask) (E : env) (st : state) :
  (exists r,
      aggregate self E st =
      (inr tt,
       {| log := log st
                 ++ [ {| level := INFO; message := "Starting data aggregation" |}; r ];
          written := written st |}))
  \/ (exists d,
         NoDup (PyDict.keys d)
         /\ aggregate self E st =
            (inr tt,
             {| log := log st
                       ++ [ {| level := INFO; message := "Starting data aggregation" |};
                            {| level := INFO;
                               message := "Data successfully aggregated and saved in "
                                          ++ output_file self |} ];
                written := written st ++ [(output_file self, JDict d)] |})).
Proof.
  assert (Hrun : forall body : Stage.M unit,
             (Stage.logging_info "Starting data aggregation" ;;; body) st =
             body {| log := log st
                            ++ [ {| level := INFO; message := "Starting data aggregation" |} ];
                     written := written st |}) by reflexivity.
  destruct (merge_files_outcome E
              (glob_glob E (input_folder self ++ "/*_analysis.json")) []
              {| log := log st ++ [ {| level := INFO; message := "Starting data aggregation" |} ];
                 written := written st |} (NoDup_nil _))
    as [(e & He)|(d & He & Hnd)].
  - left. unfold aggregate, Stage.try_except. rewrite Hrun.
    unfold Stage.bind at 1. rewrite He.
    unfold Stage.logging_error, Stage.emit.
    destruct e as [[] msg]; simpl; eexists; rewrite <- app_assoc; reflexivity.
  - destruct (json_dump E (output_file self) (JDict d)) as [e|] eqn:Hdump.
    + left. unfold aggregate, Stage.try_except. rewrite Hrun.
      unfold Stage.bind, Stage.dump. rewrite He, Hdump.
      unfold Stage.raise, Stage.logging_error, Stage.emit.
      destruct e as [[] msg]; simpl; eexists; rewrite <- app_assoc; reflexivity.
    + right. exists d. split; [exact Hnd|].
      unfold aggregate, Stage.try_except. rewrite Hrun.
      unfold Stage.bind, Stage.dump. rewrite He, Hdump.
      unfold Stage.logging_info, Stage.emit. simpl. rewrite <- app_assoc. reflexivity.
Qed.

End AggregationRuns.

(** X8: when every input file decodes but the output file cannot be
    written, the stage logs the error under the heading of its class and
    ends; it does not log a success and records no write. *)
Theorem aggregate_dump_failure
    (self : Aggregation.DataAggregationTask) (E : env) (st : state)
    (contents : list (string * json)) (e : exn) :
  glob_glob E (Aggregation.input_folder self ++ "/*_analysis.json") = map fst contents ->
  (forall f j, In (f, j) contents -> json_load E f = inr j) ->
  json_dump E (Aggregation.output_file self) (JDict (Aggregation.merged contents [])) = Some e ->
  Aggregation.aggregate self E st =
  (inr tt,
   {| log := log st
             ++ [ {| level := INFO; message := "Starting data aggregation" |};
                  {| level := ERROR;
                     message :=
                       match exn_type e with
                       | OSError => "Filesystem error during aggregation: "
                       | JSONDecodeError => "JSON decoding error during aggregation: "
                       | _ => "Unexpected error during data aggregation: "
                       end ++ exn_str e |} ];
      written := written st |}).
Proof.
  intros Hglob Hload Hdump.
  rewrite (AggregationRuns.aggregate_loaded self E st contents Hglob Hload).
  unfold Stage.try_except, Stage.bind, Stage.dump. rewrite Hdump.
  unfold Stage.raise, Stage.logging_error, Stage.emit.
  destruct e as [[] msg]; simpl; rewrite <- app_assoc; reflexivity.
Qed.

Lemma aggregate_dump_failure_witness :
  json_dump MoreExamples.env_AB_readonly "./aggregated_data.json"
    (JDict (Aggregation.merged MoreExamples.contents_AB [])) =
    Some MoreExamples.permission_denied
  /\ snd (Aggregation.aggregate StageExamples.aggregation_task
            MoreExamples.env_AB_readonly StageExamples.st0) =
     {| log := [ {| level := INFO; message := "Starting data aggregation" |};
                 {| level := ERROR;
                    message := "Filesystem error during aggregation: Permission denied" |} ];
        written := [] |}.
Proof.
  split; [reflexivity|].
  assert (Hload : forall f j,
             In (f, j) MoreExamples.contents_AB ->
             json_load MoreExamples.env_AB_readonly f = inr j).
  { intros f j [H|[H|[]]]; inversion H; reflexivity. }
  rewrite (aggregate_dump_failure StageExamples.aggregation_task
             MoreExamples.env_AB_readonly StageExamples.st0
             MoreExamples.contents_AB MoreExamples.permission_denied
             eq_refl Hload eq_refl).
  reflexivity.
Defined.

(** X9: on any file system, a run of the aggregation stage lets no
    exception out and records at most one write: to its output file, of a
    mapping whose keys are pairwise distinct. *)
Theorem aggregate_writes_at_most_one_mapping
    (self : Aggregation.DataAggregationTask) (E : env) (st : state) :
  fst (Aggregation.aggregate self E st) = inr tt
  /\ (written (snd (Aggregation.aggregate self E st)) = written st
      \/ exists d : PyDict.dict json,
           written (snd (Aggregation.aggregate self E st)) =
             written st ++ [(Aggregation.output_file self, JDict d)]
           /\ NoDup (PyDict.keys d)).
Proof.
  destruct (AggregationRuns.aggregate_outcomes self E st) as [(r & ->)|(d & Hnd & ->)];
    simpl; split; auto.
  right. exists d. split; [reflexivity|exact Hnd].
Qed.

(** ** The aggregation stage followed by the selection stage *)

Module PipelineFacts.

Lemma analyze_validated
    (validate : json -> exn + WeatherData) (self : Analyzing.DataAnalyzingTask)
    (E : env) (st : state) (data : json) (wd : WeatherData) :
  json_load E (Analyzing.input_file self) = inr data ->
  validate data = inr wd ->
  Analyzing.analyze validate self E st =
  (inr tt,
   {| log := log st
             ++ [ {| level := INFO; message := "Starting final data analysis" |};
                  {| level := INFO;
                     message := "Most favorable cities for travel: "
                                ++ String.concat ", "
                                     (Selection.best_cities (Selection.select wd)) |} ];
      written := written st |}).
Proof.
  intros Hload Hval.
  unfold Analyzing.analyze, Stage.try_except, Stage.bind, Stage.load,
    Stage.logging_info, Stage.emit, Stage.ret.
  rewrite Hload, Hval. simpl. rewrite <- app_assoc. reflexivity.
Qed.

Lemma analyze_outcome
    (validate : json -> exn + WeatherData) (self : Analyzing.DataAnalyzingTask)
    (E : env) (st : state) :
  exists r : log_record,
    Analyzing.analyze validate self E st =
    (inr tt,
     {| log := log st
               ++ [ {| level := INFO; message := "Starting final data analysis" |}; r ];
        written := written st |}).
Proof.
  unfold Analyzing.analyze, Stage.try_except, Stage.bind, Stage.load,
    Stage.logging_info, Stage.logging_error, Stage.emit, Stage.ret, Stage.raise.
  destruct (json_load E (Analyzing.input_file self)) as [[[] msg]|data]; simpl;
    try (eexists; rewrite <- app_assoc; reflexivity).
  destruct (validate data) as [[[] msg]|wd]; simpl;
    eexists; rewrite <- app_assoc; reflexivity.
Qed.

(** A file just written reads as what was written. *)
Lemma fs_after_written (E : env) (st : state) (path : string) (data : json) :
  json_load (Main.fs_after E {| log := log st; written := written st ++ [(path, data)] |})
    path = inr data.
Proof.
  unfold Main.fs_after, Aggregation.output_of. simpl.
  rewrite rev_app_distr. simpl. now rewrite String.eqb_refl.
Qed.

(** The second half of [main], with the aggregation run made explicit. *)
Lemma main_from_aggregation_unfold
    (validate : json -> exn + WeatherData) (E : env) (st : state) (st1 : state) :
  Aggregation.aggregate Main.aggregation_task E
    {| log := log st
              ++ [ {| level := INFO; message := "Starting data aggregation task" |} ];
       written := written st |} = (inr tt, st1) ->
  Main.main_from_aggregation validate E st =
  Analyzing.analyze validate Main.analyzing_task
    (Main.fs_after E {| log := log st1
                                ++ [ {| level := INFO;
                                        message := "Starting data analyzing task" |} ];
                        written := written st1 |})
    {| log := log st1
              ++ [ {| level := INFO; message := "Starting data analyzing task" |} ];
       written := written st1 |}.
Proof.
  intros Hagg.
  unfold Main.main_from_aggregation, Main.run_data_aggregation_task,
    Main.run_data_analyzing_task, Stage.bind.
  unfold Stage.logging_info at 1. unfold Stage.emit at 1.
  rewrite Hagg. reflexivity.
Qed.

End PipelineFacts.

(** X10: when every analysis file decodes, the aggregated file is
    written and its content validates, the second half of [main] logs six
    lines and exits normally; the selection stage reads the mapping the
    aggregation stage has just written, and the last line names the best
    cities of that mapping. *)
Theorem main_selects_from_aggregated_files
    (validate : json -> exn + WeatherData) (E : env) (st : state)
    (contents : list (string * json)) (wd : WeatherData) :
  glob_glob E "./results/*_analysis.json" = map fst contents ->
  (forall f j, In (f, j) contents -> json_load E f = inr j) ->
  json_dump E "./aggregated_data.json" (JDict (Aggregation.merged contents [])) = None ->
  validate (JDict (Aggregation.merged contents [])) = inr wd ->
  Main.main_from_aggregation validate E st =
  (inr tt,
   {| log := log st
             ++ [ {| level := INFO; message := "Starting data aggregation task" |};
                  {| level := INFO; message := "Starting data aggregation" |};
                  {| level := INFO;
                     message := "Data successfully aggregated and saved in ./aggregated_data.json" |};
                  {| level := INFO; message := "Starting data analyzing task" |};
                  {| level := INFO; message := "Starting final data analysis" |};
                  {| level := INFO;
                     message := "Most favorable cities for travel: "
                                ++ String.concat ", "
                                     (Selection.best_cities (Selection.select wd)) |} ];
      written := written st
                 ++ [("./aggregated_data.json", JDict (Aggregation.merged contents []))] |}).
Proof.
  intros Hglob Hload Hdump Hval.
  rewrite (PipelineFacts.main_from_aggregation_unfold validate E st _
             (AggregationRuns.aggregate_success Main.aggregation_task E _ contents
                Hglob Hload Hdump)).
  cbn [log written].
  rewrite (PipelineFacts.analyze_validated validate Main.analyzing_task _ _
             (JDict (Aggregation.merged contents [])) wd).
  - cbn [log written]. rewrite <- !app_assoc. reflexivity.
  - apply (PipelineFacts.fs_after_written E
             {| log := _; written := written st |} "./aggregated_data.json").
  - exact Hval.
Qed.

Lemma main_selects_from_aggregated_files_witness :
  Schema.validate_WeatherData (JDict (Aggregation.merged MoreExamples.contents_MP [])) =
    inr MoreExamples.wd_MP
  /\ log (snd (Main.main_from_aggregation Schema.validate_WeatherData
                 (MoreExamples.env_of MoreExamples.contents_MP) StageExamples.st0)) =
     [ {| level := INFO; message := "Starting data aggregation task" |};
       {| level := INFO; message := "Starting data aggregation" |};
       {| level := INFO;
          message := "Data successfully aggregated and saved in ./aggregated_data.json" |};
       {| level := INFO; message := "Starting data analyzing task" |};
       {| level := INFO; message := "Starting final data analysis" |};
       {| level := INFO; message := "Most favorable cities for travel: PARIS" |} ].
Proof.
  split; [reflexivity|].
  assert (Hload : forall f j,
             In (f, j) MoreExamples.contents_MP ->
             json_load (MoreExamples.env_of MoreExamples.contents_MP) f = inr j).
  { intros f j [H|[H|[]]]; inversion H; reflexivity. }
  rewrite (main_selects_from_aggregated_files Schema.validate_WeatherData
             (MoreExamples.env_of MoreExamples.contents_MP) StageExamples.st0
             MoreExamples.contents_MP MoreExamples.wd_MP
             eq_refl Hload eq_refl eq_refl).
  reflexivity.
Defined.

(** X11: when an analysis file cannot be read or decoded, the second
    half of [main] goes on all the same: the selection stage runs, on the
    aggregated file as it was before the run, since the failed
    aggregation has written nothing. *)
Theorem main_selects_from_stale_file
    (validate : json -> exn + WeatherData) (E : env) (st : state)
    (contents : list (string * json)) (f : string) (post : list string) (e : exn) :
  glob_glob E "./results/*_analysis.json" = map fst contents ++ f :: post ->
  (forall g j, In (g, j) contents -> json_load E g = inr j) ->
  json_load E f = inl e ->
  exists r : log_record,
    level r = ERROR
    /\ Main.main_from_aggregation validate E st =
       Analyzing.analyze validate Main.analyzing_task (Main.fs_after E st)
         {| log := log st
                   ++ [ {| level := INFO; message := "Starting data aggregation task" |};
                        {| level := INFO; message := "Starting data aggregation" |};
                        r;
                        {| level := INFO; message := "Starting data analyzing task" |} ];
            written := written st |}.
Proof.
  intros Hglob Hload Hf.
  assert (Hagg : exists r, level r = ERROR /\
            Aggregation.aggregate Main.aggregation_task E
              {| log := log st
                        ++ [ {| level := INFO; message := "Starting data aggregation task" |} ];
                 written := written st |} =
            (inr tt,
             {| log := log st
                       ++ [ {| level := INFO; message := "Starting data aggregation task" |};
                            {| level := INFO; message := "Starting data aggregation" |}; r ];
                written := written st |})).
  { unfold Aggregation.aggregate, Stage.try_except, Stage.bind.
    unfold Stage.logging_info at 1. unfold Stage.emit.
    change (glob_glob E (Aggregation.input_folder Main.aggregation_task ++ "/*_analysis.json"))
      with (glob_glob E "./results/*_analysis.json").
    rewrite Hglob, (AggregationFacts.merge_files_fails E contents f post e) by assumption.
    unfold Stage.logging_error, Stage.emit.
    exists {| level := ERROR;
              message := match exn_type e with
                         | OSError => "Filesystem error during aggregation: "
                         | JSONDecodeError => "JSON decoding error during aggregation: "
                         | _ => "Unexpected error during data aggregation: "
                         end ++ exn_str e |}.
    split; [reflexivity|].
    destruct e as [[] msg]; simpl; rewrite <- !app_assoc; reflexivity. }
  destruct Hagg as (r & Hr & Hagg). exists r. split; [exact Hr|].
  rewrite (PipelineFacts.main_from_aggregation_unfold validate E st _ Hagg).
  cbn [log written]. rewrite <- !app_assoc. reflexivity.
Qed.

Lemma main_selects_from_stale_file_witness :
  json_load MoreExamples.env_M_broken_P "./results/PARIS_analysis.json" =
    inl MoreExamples.permission_denied
  /\ exists r : log_record,
       level r = ERROR
       /\ Main.main_from_aggregation Schema.validate_WeatherData
            MoreExamples.env_M_broken_P StageExamples.st0 =
          Analyzing.analyze Schema.validate_WeatherData Main.analyzing_task
            (Main.fs_after MoreExamples.env_M_broken_P StageExamples.st0)
            {| log := [ {| level := INFO; message := "Starting data aggregation task" |};
                        {| level := INFO; message := "Starting data aggregation" |};
                        r;
                        {| level := INFO; message := "Starting data analyzing task" |} ];
               written := [] |}.
Proof.
  split; [reflexivity|].
  assert (Hload : forall g j,
             In (g, j) [ ("./results/MOSCOW_analysis.json",
                          MoreExamples.city_json [StageExamples.json_day 11 (JInt 20) 3]) ] ->
             json_load MoreExamples.env_M_broken_P g = inr j).
  { intros g j [H|[]]; inversion H; reflexivity. }
  exact (main_selects_from_stale_file Schema.validate_WeatherData
           MoreExamples.env_M_broken_P StageExamples.st0
           [ ("./results/MOSCOW_analysis.json",
              MoreExamples.city_json [StageExamples.json_day 11 (JInt 20) 3]) ]
           "./results/PARIS_analysis.json" [] MoreExamples.permission_denied
           eq_refl Hload eq_refl).
Defined.

(** X12: whatever the file system and the validator do, the second half
    of [main] exits normally and both stages are started: the log gains
    the two lines of [main], with the start line of the aggregation
    stage after the first and the start line of the selection stage
    after the second. *)
Theorem main_from_aggregation_runs_both_stages
    (validate : json -> exn + WeatherData) (E : env) (st : state) :
  exists (l : list log_record) (r : log_record),
    fst (Main.main_from_aggregation validate E st) = inr tt
    /\ log (snd (Main.main_from_aggregation validate E st)) =
       log st
       ++ {| level := INFO; message := "Starting data aggregation task" |}
          :: {| level := INFO; message := "Starting data aggregation" |}
          :: l
          ++ [ {| level := INFO; message := "Starting data analyzing task" |};
               {| level := INFO; message := "Starting final data analysis" |};
               r ].
Proof.
  destruct (AggregationRuns.aggregate_outcomes Main.aggregation_task E
              {| log := log st
                        ++ [ {| level := INFO; message := "Starting data aggregation task" |} ];
                 written := written st |})
    as [(r1 & Hagg)|(d & _ & Hagg)];
    rewrite (PipelineFacts.main_from_aggregation_unfold validate E st _ Hagg);
    match goal with
    | |- context [Analyzing.analyze ?v ?t ?E' ?s] =>
        destruct (PipelineFacts.analyze_outcome v t E' s) as (r & ->)
    end; cbn [fst snd log written].
  - exists [r1], r. split; [reflexivity|]. rewrite <- !app_assoc. reflexivity.
  - eexists [_], r. split; [reflexivity|]. rewrite <- !app_assoc. reflexivity.
Qed.

(** ** The schema on whole datasets *)

Module SchemaFacts.
Import Schema.


Lemma validate_all_refuses {A B} (f : A -> option B) (l : list A) (a : A) :
  In a l -> f a = None -> validate_all f l = None.
Proof.
  induction l as [|x l IH]; simpl; intros Hin Hf; [contradiction|].
  destruct Hin as [->|Hin].
  - now rewrite Hf.
  - rewrite (IH Hin Hf). now destruct (f x).
Qed.

Lemma missing_required_field (ditems : PyDict.dict json) :
  PyDict.get "date" ditems = None
  \/ PyDict.get "hours_count" ditems = None
  \/ PyDict.get "relevant_cond_hours" ditems = None ->
  validate_DayData (JDict ditems) = None.
Proof.
  unfold validate_DayData, required.
  intros [H|[H|H]]; rewrite H.
  - reflexivity.
  - destruct (match PyDict.get "date" ditems with Some j => as_str j | None => None end),
      (optional as_int "hours_start" ditems), (optional as_int "hours_end" ditems);
      reflexivity.
  - destruct (match PyDict.get "date" ditems with Some j => as_str j | None => None end),
      (optional as_int "hours_start" ditems), (optional as_int "hours_end" ditems),
      (match PyDict.get "hours_count" ditems with Some j => as_int j | None => None end),
      (optional as_float "temp_avg" ditems);
      reflexivity.
Qed.

End SchemaFacts.



(** X14: validation is all or nothing: one day, in one city, that lacks
    [date], [hours_count] or [relevant_cond_hours] makes the whole
    dataset fail with [ValidationError]. *)
Theorem one_bad_day_fails_the_dataset
    (items : PyDict.dict json) (city : string) (citems : PyDict.dict json)
    (ds : list json) (ditems : PyDict.dict json) :
  In (city, JDict citems) items ->
  PyDict.get "days" citems = Some (JList ds) ->
  In (JDict ditems) ds ->
  PyDict.get "date" ditems = None
  \/ PyDict.get "hours_count" ditems = None
  \/ PyDict.get "relevant_cond_hours" ditems = None ->
  exists e, Schema.validate_WeatherData (JDict items) = inl e
            /\ exn_type e = ValidationError.
Proof.
  intros Hcity Hdays Hday Hmissing.
  assert (Hc : Schema.validate_item (city, JDict citems) = None).
  { unfold Schema.validate_item, Schema.validate_CityData. simpl. rewrite Hdays.
    rewrite (SchemaFacts.validate_all_refuses Schema.validate_DayData ds (JDict ditems) Hday
               (SchemaFacts.missing_required_field ditems Hmissing)).
    reflexivity. }
  unfold Schema.validate_WeatherData.
  rewrite (SchemaFacts.validate_all_refuses Schema.validate_item items _ Hcity Hc).
  eexists. split; reflexivity.
Qed.

Lemma one_bad_day_fails_the_dataset_witness :
  PyDict.get "hours_count" [("date", JStr "2022-05-26"); ("relevant_cond_hours", JInt 3)] = None
  /\ exists e,
       Schema.validate_WeatherData
         (JDict [ ("MOSCOW", MoreExamples.city_json [StageExamples.json_day 11 (JInt 20) 3]);
                  ("PARIS",
                   JDict [("days",
                           JList [ StageExamples.json_day 11 (JInt 21) 5;
                                   JDict [("date", JStr "2022-05-26");
                                          ("relevant_cond_hours", JInt 3)] ])]) ]) = inl e
       /\ exn_type e = ValidationError.
Proof.
  split; [reflexivity|].
  apply (one_bad_day_fails_the_dataset _ "PARIS"
           [("days",
             JList [ StageExamples.json_day 11 (JInt 21) 5;
                     JDict [("date", JStr "2022-05-26");
                            ("relevant_cond_hours", JInt 3)] ])]
           [ StageExamples.json_day 11 (JInt 21) 5;
             JDict [("date", JStr "2022-05-26"); ("relevant_cond_hours", JInt 3)] ]
           [("date", JStr "2022-05-26"); ("relevant_cond_hours", JInt 3)]).
  - right. now left.
  - reflexivity.
  - right. now left.
  - right. left. reflexivity.
Defined.

(** ** File names from [main.py] to the aggregation key *)

Module PyStrFacts.
Import PyStr.

Lemma startswith_self (old t : string) : startswith (old ++ t) old = true.
Proof.
  induction old as [|a old IH]; simpl; [reflexivity|].
  now rewrite Ascii.eqb_refl, IH.
Qed.

(** A pattern does not start where the text goes on with a character
    the pattern does not have. *)
Lemma startswith_foreign (p x : string) (c : ascii) (t : string) :
  PyPath.has_char c p = false ->
  startswith (x ++ String c t) p = startswith x p.
Proof.
  revert x. induction p as [|a p IH]; intros x Hc; simpl; [reflexivity|].
  simpl in Hc. apply orb_false_iff in Hc as [Hac Hp].
  destruct x as [|b x]; simpl.
  - now rewrite Hac.
  - now rewrite IH.
Qed.

Lemma replace_from_skip (old new p t : string) :
  replace_from old new (String.length p) (p ++ t) = replace_from old new 0 t.
Proof.
  induction p as [|a p IH]; simpl; [|exact IH].
  destruct t; reflexivity.
Qed.

(** At an occurrence of [old], the scan emits [new] and goes on after
    the occurrence. *)
Lemma replace_from_hit (a : ascii) (old' new t : string) :
  replace_from (String a old') new 0 (String a old' ++ t) =
  (new ++ replace_from (String a old') new 0 t)%string.
Proof.
  change (String a old' ++ t)%string with (String a (old' ++ t)).
  cbn [replace_from].
  change (String a (old' ++ t)) with (String a old' ++ t)%string.
  rewrite startswith_self.
  replace (String.length (String a old') - 1)%nat with (String.length old')
    by (simpl; lia).
  now rewrite replace_from_skip.
Qed.

(** A text without the first character of [old] is copied. *)
Lemma replace_from_no_first (a : ascii) (old' new x t : string) :
  PyPath.has_char a x = false ->
  replace_from (String a old') new 0 (x ++ t) =
  (x ++ replace_from (String a old') new 0 t)%string.
Proof.
  induction x as [|b x IH]; simpl; intros Hx; [reflexivity|].
  apply orb_false_iff in Hx as [Hb Hx].
  rewrite Ascii.eqb_sym, Hb. simpl. now rewrite IH.
Qed.

(** A text without [old], followed by a character that [old] does not
    have, is copied. *)
Lemma replace_from_foreign (old new x : string) (c : ascii) (t : string) :
  contains old x = false ->
  PyPath.has_char c old = false ->
  replace_from old new 0 (x ++ String c t) =
  (x ++ replace_from old new 0 (String c t))%string.
Proof.
  intros Hx Hc. induction x as [|b x IH]; [reflexivity|].
  simpl in Hx. apply orb_false_iff in Hx as [Hb Hx].
  change (String b x ++ String c t)%string with (String b (x ++ String c t)).
  cbn [replace_from].
  change (String b (x ++ String c t)) with (String b x ++ String c t)%string.
  rewrite (startswith_foreign old (String b x) c t Hc).
  assert (Hb' : startswith (String b x) old = false).
  { destruct old; [discriminate|exact Hb]. }
  rewrite Hb'. simpl. now rewrite (IH Hx).
Qed.

Lemma split_head_app_sep (sep : ascii) (x t : string) :
  PyPath.split_head sep (x ++ String sep t) = PyPath.split_head sep x.
Proof.
  induction x as [|b x IH]; simpl.
  - now rewrite Ascii.eqb_refl.
  - destruct (Ascii.eqb b sep); [reflexivity|now rewrite IH].
Qed.

End PyStrFacts.

(** X15: for a city whose name holds no [data], no underscore and no
    slash, the calculation task turns the path of the fetched file,
    [./data/<city>_weather.json], into [./results/<city>_analysis.json],
    and the aggregation stage keys that file by the city's name. *)
Theorem city_path_round_trip (city : string) :
  PyStr.contains "data" city = false ->
  PyPath.has_char "_" city = false ->
  PyPath.has_char "/" city = false ->
  Main.analysis_path (Main.weather_path city) =
    ("./results/" ++ city ++ "_analysis.json")%string
  /\ Aggregation.city_name_of (Main.analysis_path (Main.weather_path city)) = city.
Proof.
  intros Hdata Hus Hsl.
  assert (Hpath : Main.analysis_path (Main.weather_path city) =
                  ("./results/" ++ city ++ "_analysis.json")%string).
  { unfold Main.analysis_path, Main.weather_path, PyStr.replace.
    change ("./data/" ++ city ++ "_weather.json")%string
      with ("./" ++ ("data" ++ ((String "/" city) ++ String "_" "weather.json")))%string.
    rewrite (PyStrFacts.replace_from_no_first "d" "ata" "results" "./") by reflexivity.
    rewrite (PyStrFacts.replace_from_hit "d" "ata" "results").
    rewrite (PyStrFacts.replace_from_foreign "data" "results" (String "/" city) "_")
      by (try reflexivity; simpl; exact Hdata).
    change ("./" ++ "results" ++ String "/" city
            ++ PyStr.replace_from "data" "results" 0 (String "_" "weather.json"))%string
      with (("./results/" ++ city) ++ "_weather.json")%string.
    rewrite (PyStrFacts.replace_from_no_first "_" "weather.json" "_analysis.json"
               ("./results/" ++ city))
      by (rewrite PyPathFacts.has_char_app; simpl; exact Hus).
    change (PyStr.replace_from "_weather.json" "_analysis.json" 0 "_weather.json")
      with "_analysis.json".
    reflexivity. }
  split; [exact Hpath|].
  rewrite Hpath.
  apply (AggregationFacts.city_name_of_path "./results" city "analysis.json");
    auto.
Qed.

Lemma city_path_round_trip_witness :
  PyStr.contains "data" "MOSCOW" = false
  /\ Main.analysis_path (Main.weather_path "MOSCOW") = "./results/MOSCOW_analysis.json"
  /\ Aggregation.city_name_of (Main.analysis_path (Main.weather_path "MOSCOW")) = "MOSCOW".
Proof.
  split; [reflexivity|].
  exact (city_path_round_trip "MOSCOW" eq_refl eq_refl eq_refl).
Defined.

(** X16: the aggregation stage keys the analysis file of a city by the
    city's name cut at its first underscore: the whole name only when it
    has no underscore, and the same key for two cities that agree up to
    their first underscore. *)
Theorem city_key_stops_at_first_underscore (dir city : string) :
  PyPath.has_char "/" city = false ->
  Aggregation.city_name_of (dir ++ "/" ++ city ++ "_analysis.json") =
  PyPath.split_head "_" city
  /\ (forall city' : string,
         PyPath.has_char "/" city' = false ->
         PyPath.split_head "_" city' = PyPath.split_head "_" city ->
         Aggregation.city_name_of (dir ++ "/" ++ city' ++ "_analysis.json") =
         Aggregation.city_name_of (dir ++ "/" ++ city ++ "_analysis.json")).
Proof.
  assert (Hkey : forall c, PyPath.has_char "/" c = false ->
            Aggregation.city_name_of (dir ++ "/" ++ c ++ "_analysis.json") =
            PyPath.split_head "_" c).
  { intros c Hc. unfold Aggregation.city_name_of.
    change (dir ++ "/" ++ c ++ "_analysis.json")%string
      with (dir ++ String "/" (c ++ String "_" "analysis.json"))%string.
    rewrite PyPathFacts.basename_app.
    - apply PyStrFacts.split_head_app_sep.
    - rewrite PyPathFacts.has_char_app, Hc. reflexivity. }
  intros Hc. split; [now apply Hkey|].
  intros c' Hc' Heq. now rewrite !Hkey.
Qed.

Lemma city_key_stops_at_first_underscore_witness :
  PyPath.has_char "/" "NEW_YORK" = false
  /\ Aggregation.city_name_of ("./results" ++ "/" ++ "NEW_YORK" ++ "_analysis.json") = "NEW".
Proof.
  split; [reflexivity|].
  exact (proj1 (city_key_stops_at_first_underscore "./results" "NEW_YORK" eq_refl)).
Defined.

(** ** The calculation task *)

(** X17: whatever the file system, the analyzer and [os.makedirs] do, the
    calculation task lets no exception out, adds two lines to the log,
    the first being its start line, and records at most one write, to
    its output path. *)
Theorem calculate_never_raises
    (self : Calculation.DataCalculationTask) (X : externals) (E : env) (st : state) :
  exists r : log_record,
    fst (Calculation.calculate self X E st) = inr tt
    /\ log (snd (Calculation.calculate self X E st)) =
       log st
       ++ [ {| level := INFO;
               message := "Starting data analysis for file " ++ Calculation.input_path self |};
            r ]
    /\ (written (snd (Calculation.calculate self X E st)) = written st
        \/ exists analyzed : json,
             written (snd (Calculation.calculate self X E st)) =
             written st ++ [(Calculation.output_path self, analyzed)]).
Proof.
  unfold Calculation.calculate, Stage.try_except, Stage.bind, Stage.load,
    Calls.makedirs, Calls.call_analyze_json, Calls.call_dump_data,
    Stage.logging_info, Stage.logging_error, Stage.emit, Stage.ret, Stage.raise.
  destruct (json_load E (Calculation.input_path self)) as [[[] msg]|data]; simpl;
    try (eexists; split; [reflexivity|]; split;
         [rewrite <- app_assoc; reflexivity|left; reflexivity]).
  destruct (os_makedirs X (PyOsPath.dirname (Calculation.output_path self)))
    as [[[] msg]|]; simpl;
    try (eexists; split; [reflexivity|]; split;
         [rewrite <- app_assoc; reflexivity|left; reflexivity]).
  destruct (analyze_json X data) as [[[] msg]|analyzed]; simpl;
    try (eexists; split; [reflexivity|]; split;
         [rewrite <- app_assoc; reflexivity|left; reflexivity]).
  destruct (dump_data X analyzed (Calculation.output_path self)) as [[[] msg]|]; simpl;
    try (eexists; split; [reflexivity|]; split;
         [rewrite <- app_assoc; reflexivity|left; reflexivity]).
  eexists; split; [reflexivity|]; split; [rewrite <- app_assoc; reflexivity|].
  right. eexists. reflexivity.
Qed.

(** X18: when the input decodes, the directory can be made, the analyzer
    returns and its result is dumped, the calculation task writes the
    analyzer's result for the decoded input to its output path and logs
    its start and its success. *)
Theorem calculate_writes_analysis
    (self : Calculation.DataCalculationTask) (X : externals) (E : env) (st : state)
    (data analyzed : json) :
  json_load E (Calculation.input_path self) = inr data ->
  os_makedirs X (PyOsPath.dirname (Calculation.output_path self)) = None ->
  analyze_json X data = inr analyzed ->
  dump_data X analyzed (Calculation.output_path self) = None ->
  Calculation.calculate self X E st =
  (inr tt,
   {| log := log st
             ++ [ {| level := INFO;
                     message := "Starting data analysis for file "
                                ++ Calculation.input_path self |};
                  {| level := INFO;
                     message := "Data successfully analyzed and saved in "
                                ++ Calculation.output_path self |} ];
      written := written st ++ [(Calculation.output_path self, analyzed)] |}).
Proof.
  intros Hload Hmk Han Hdump.
  unfold Calculation.calculate, Stage.try_except, Stage.bind, Stage.load,
    Calls.makedirs, Calls.call_analyze_json, Calls.call_dump_data,
    Stage.logging_info, Stage.emit, Stage.ret.
  rewrite Hload. simpl. rewrite Hmk. simpl. rewrite Han. simpl. rewrite Hdump. simpl.
  rewrite <- app_assoc. reflexivity.
Qed.

Lemma calculate_writes_analysis_witness :
  json_load TaskExamples.env_fetched "./data/MOSCOW_weather.json" = inr TaskExamples.forecast
  /\ written (snd (Calculation.calculate TaskExamples.calculate_moscow
                     TaskExamples.externals_ok TaskExamples.env_fetched StageExamples.st0)) =
     [("./results/MOSCOW_analysis.json", JDict [("days", JList [TaskExamples.forecast])])].
Proof.
  split; [reflexivity|].
  rewrite (calculate_writes_analysis TaskExamples.calculate_moscow
             TaskExamples.externals_ok TaskExamples.env_fetched StageExamples.st0
             TaskExamples.forecast (JDict [("days", JList [TaskExamples.forecast])])
             eq_refl eq_refl eq_refl eq_refl).
  reflexivity.
Defined.

(** X19: the first step of the calculation task that fails (reading the
    input, making the directory, analyzing, dumping) ends it: the error
    is logged with the input path under the heading of its class and
    nothing is written. *)
Theorem calculate_first_failure
    (self : Calculation.DataCalculationTask) (X : externals) (E : env) (st : state)
    (e : exn) :
  json_load E (Calculation.input_path self) = inl e
  \/ (exists data,
         json_load E (Calculation.input_path self) = inr data
         /\ (os_makedirs X (PyOsPath.dirname (Calculation.output_path self)) = Some e
             \/ (os_makedirs X (PyOsPath.dirname (Calculation.output_path self)) = None
                 /\ (analyze_json X data = inl e
                     \/ exists analyzed,
                          analyze_json X data = inr analyzed
                          /\ dump_data X analyzed (Calculation.output_path self) = Some e)))) ->
  Calculation.calculate self X E st =
  (inr tt,
   {| log := log st
             ++ [ {| level := INFO;
                     message := "Starting data analysis for file "
                                ++ Calculation.input_path self |};
                  {| level := ERROR;
                     message :=
                       match exn_type e with
                       | OSError => "Filesystem error during processing file "
                       | JSONDecodeError => "JSON decoding error during processing file "
                       | _ => "Error during data analysis from file "
                       end ++ Calculation.input_path self ++ ": " ++ exn_str e |} ];
      written := written st |}).
Proof.
  unfold Calculation.calculate, Stage.try_except, Stage.bind, Stage.load,
    Calls.makedirs, Calls.call_analyze_json, Calls.call_dump_data,
    Stage.logging_info, Stage.logging_error, Stage.emit, Stage.ret, Stage.raise.
  intros [Hload|(data & Hload & [Hmk|(Hmk & [Han|(analyzed & Han & Hdump)])])];
    rewrite Hload; simpl; try rewrite Hmk; simpl; try rewrite Han; simpl;
    try rewrite Hdump; simpl;
    destruct e as [[] msg]; simpl; rewrite <- app_assoc; reflexivity.
Qed.

Lemma calculate_first_failure_witness :
  analyze_json TaskExamples.externals_failing TaskExamples.forecast =
    inl TaskExamples.bad_shape
  /\ snd (Calculation.calculate TaskExamples.calculate_moscow
            TaskExamples.externals_failing TaskExamples.env_fetched StageExamples.st0) =
     {| log := [ {| level := INFO;
                    message := "Starting data analysis for file ./data/MOSCOW_weather.json" |};
                 {| level := ERROR;
                    message := "Error during data analysis from file ./data/MOSCOW_weather.json: 'forecasts'" |} ];
        written := [] |}.
Proof.
  split; [reflexivity|].
  rewrite (calculate_first_failure TaskExamples.calculate_moscow
             TaskExamples.externals_failing TaskExamples.env_fetched StageExamples.st0
             TaskExamples.bad_shape).
  - reflexivity.
  - right. exists TaskExamples.forecast. split; [reflexivity|].
    right. split; [reflexivity|]. left. reflexivity.
Defined.

(** ** The fetch task *)

Module FetchingFacts.

(** The handlers of the fetch task with and without the second clause
    agree as soon as every [RequestException] is an [OSError]. *)
Lemma second_clause_unreachable {A} (is_RequestException : exn_class -> bool)
    (body : Stage.M A) (h1 h2 : exn -> Stage.M A) (st : state) :
  (forall c, is_RequestException c = true -> Stage.is_OSError c = true) ->
  Stage.try_except body [(Stage.is_OSError, h1); (is_RequestException, h2)] st =
  Stage.try_except body [(Stage.is_OSError, h1)] st.
Proof.
  intros Hsub. unfold Stage.try_except.
  destruct (body st) as [[e|a] st']; [|reflexivity].
  simpl. destruct (Stage.is_OSError (exn_type e)) eqn:Hos; [reflexivity|].
  destruct (is_RequestException (exn_type e)) eqn:Hreq; [|reflexivity].
  rewrite (Hsub _ Hreq) in Hos. discriminate.
Qed.

End FetchingFacts.

(** X20: when the client returns an empty answer ([None], an empty dict,
    any false value), the fetch task ends at once: it logs its start
    line only, makes no directory, writes no file and raises nothing. *)
Theorem fetch_empty_answer_is_a_no_op
    (is_RequestException : exn_class -> bool) (self : Fetching.DataFetchingTask)
    (X X' : externals) (E E' : env) (st : state) (url : string) (weather_data : json) :
  PyDict.get (Fetching.city_name self) (CITIES X) = Some url ->
  get_forecasting X url = inr weather_data ->
  PyTruth.truthy weather_data = false ->
  Fetching.fetch_and_save_data is_RequestException self X E st =
  (inr tt,
   {| log := log st
             ++ [ {| level := INFO;
                     message := "Starting data fetching for city "
                                ++ Fetching.city_name self |} ];
      written := written st |})
  /\ (CITIES X' = CITIES X -> get_forecasting X' = get_forecasting X ->
      Fetching.fetch_and_save_data is_RequestException self X' E' st =
      Fetching.fetch_and_save_data is_RequestException self X E st).
Proof.
  intros Hcity Hget Hfalse.
  assert (Hrun : forall Y F, CITIES Y = CITIES X -> get_forecasting Y = get_forecasting X ->
            Fetching.fetch_and_save_data is_RequestException self Y F st =
            (inr tt,
             {| log := log st
                       ++ [ {| level := INFO;
                               message := "Starting data fetching for city "
                                          ++ Fetching.city_name self |} ];
                written := written st |})).
  { intros Y F HC HG.
    unfold Fetching.fetch_and_save_data, Stage.try_except, Stage.bind,
      Calls.subscript_CITIES, Calls.call_get_forecasting,
      Stage.logging_info, Stage.emit, Stage.ret.
    rewrite HC, Hcity. simpl. rewrite HG, Hget. simpl. rewrite Hfalse. reflexivity. }
  split.
  - now apply Hrun.
  - intros HC HG. rewrite (Hrun X' E' HC HG). symmetry. now apply Hrun.
Qed.

Lemma fetch_empty_answer_is_a_no_op_witness :
  PyTruth.truthy (JDict []) = false
  /\ snd (Fetching.fetch_and_save_data Stage.is_OSError TaskExamples.fetch_moscow
            TaskExamples.externals_empty TaskExamples.env_fetched StageExamples.st0) =
     {| log := [ {| level := INFO; message := "Starting data fetching for city MOSCOW" |} ];
        written := [] |}.
Proof.
  split; [reflexivity|].
  rewrite (proj1 (fetch_empty_answer_is_a_no_op Stage.is_OSError TaskExamples.fetch_moscow
                    TaskExamples.externals_empty TaskExamples.externals_empty
                    TaskExamples.env_fetched TaskExamples.env_fetched StageExamples.st0
                    "https://example.org/moscow" (JDict [])
                    eq_refl eq_refl eq_refl)).
  reflexivity.
Defined.



(** X22: [RequestException] derives from [IOError], that is [OSError];
    then the [except RequestException] clause never runs: the task
    behaves as if it were not there, and an exception it catches, a
    network failure included, is logged as a filesystem error of the
    city. *)
Theorem fetch_network_clause_is_dead
    (is_RequestException : exn_class -> bool) (self : Fetching.DataFetchingTask)
    (X : externals) (E : env) (st : state) :
  (forall c, is_RequestException c = true -> Stage.is_OSError c = true) ->
  Fetching.fetch_and_save_data is_RequestException self X E st =
  Fetching.fetch_and_save_data (fun _ => false) self X E st
  /\ (forall (url : string) (e : exn),
         PyDict.get (Fetching.city_name self) (CITIES X) = Some url ->
         get_forecasting X url = inl e ->
         is_RequestException (exn_type e) = true ->
         Fetching.fetch_and_save_data is_RequestException self X E st =
         (inr tt,
          {| log := log st
                    ++ [ {| level := INFO;
                            message := "Starting data fetching for city "
                                       ++ Fetching.city_name self |};
                         {| level := ERROR;
                            message := "Filesystem error for city "
                                       ++ Fetching.city_name self ++ ": " ++ exn_str e |} ];
             written := written st |})).
Proof.
  intros Hsub. split.
  - unfold Fetching.fetch_and_save_data.
    rewrite (FetchingFacts.second_clause_unreachable is_RequestException) by exact Hsub.
    rewrite (FetchingFacts.second_clause_unreachable (fun _ => false)) by discriminate.
    reflexivity.
  - intros url e Hcity Hget Hreq.
    unfold Fetching.fetch_and_save_data, Stage.try_except, Stage.bind,
      Calls.subscript_CITIES, Calls.call_get_forecasting,
      Stage.logging_info, Stage.logging_error, Stage.emit, Stage.ret, Stage.raise.
    rewrite Hcity. simpl. rewrite Hget. simpl. rewrite (Hsub _ Hreq). simpl.
    rewrite <- app_assoc. reflexivity.
Qed.

Lemma fetch_network_clause_is_dead_witness :
  (forall c, Stage.is_OSError c = true -> Stage.is_OSError c = true)
  /\ snd (Fetching.fetch_and_save_data Stage.is_OSError TaskExamples.fetch_moscow
            TaskExamples.externals_failing TaskExamples.env_fetched StageExamples.st0) =
     {| log := [ {| level := INFO; message := "Starting data fetching for city MOSCOW" |};
                 {| level := ERROR;
                    message := "Filesystem error for city MOSCOW: Read timed out." |} ];
        written := [] |}.
Proof.
  split; [auto|].
  rewrite (proj2 (fetch_network_clause_is_dead Stage.is_OSError TaskExamples.fetch_moscow
                    TaskExamples.externals_failing TaskExamples.env_fetched
                    StageExamples.st0 (fun c H => H))
             "https://example.org/moscow" TaskExamples.timeout eq_refl eq_refl eq_refl).
  reflexivity.
Defined.

(** X23: when the client returns a non-empty answer, the directory can
    be made and the file written, the fetch task writes the answer,
    unchanged, to its output path and logs its start and its success. *)
Theorem fetch_saves_the_answer
    (is_RequestException : exn_class -> bool) (self : Fetching.DataFetchingTask)
    (X : externals) (E : env) (st : state) (url : string) (weather_data : json) :
  PyDict.get (Fetching.city_name self) (CITIES X) = Some url ->
  get_forecasting X url = inr weather_data ->
  PyTruth.truthy weather_data = true ->
  os_makedirs X (PyOsPath.dirname (Fetching.output_path self)) = None ->
  json_dump E (Fetching.output_path self) weather_data = None ->
  Fetching.fetch_and_save_data is_RequestException self X E st =
  (inr tt,
   {| log := log st
             ++ [ {| level := INFO;
                     message := "Starting data fetching for city "
                                ++ Fetching.city_name self |};
                  {| level := INFO;
                     message := "Data for city " ++ Fetching.city_name self
                                ++ " successfully saved in "
                                ++ Fetching.output_path self |} ];
      written := written st ++ [(Fetching.output_path self, weather_data)] |}).
Proof.
  intros Hcity Hget Htrue Hmk Hdump.
  unfold Fetching.fetch_and_save_data, Stage.try_except, Stage.bind,
    Calls.subscript_CITIES, Calls.call_get_forecasting, Calls.makedirs, Stage.dump,
    Stage.logging_info, Stage.emit, Stage.ret.
  rewrite Hcity. simpl. rewrite Hget. simpl. rewrite Htrue. simpl.
  rewrite Hmk. simpl. rewrite Hdump. simpl. rewrite <- app_assoc. reflexivity.
Qed.

Lemma fetch_saves_the_answer_witness :
  PyTruth.truthy TaskExamples.forecast = true
  /\ written (snd (Fetching.fetch_and_save_data Stage.is_OSError TaskExamples.fetch_moscow
                     TaskExamples.externals_ok TaskExamples.env_fetched StageExamples.st0)) =
     [("./data/MOSCOW_weather.json", TaskExamples.forecast)].
Proof.
  split; [reflexivity|].
  rewrite (fetch_saves_the_answer Stage.is_OSError TaskExamples.fetch_moscow
             TaskExamples.externals_ok TaskExamples.env_fetched StageExamples.st0
             "https://example.org/moscow" TaskExamples.forecast
             eq_refl eq_refl eq_refl eq_refl eq_refl).
  reflexivity.
Defined.
